(** * Certificate issuance, verification and revocation of Medieventhub

    A shallow embedding of the certificate subsystem:
    - [src/server/utils/certificate.ts]: [generateCertificateNumber],
      [validateCertificateNumber] and the QR rendering [generateCertificate];
    - [src/server/middleware/auth.ts]: the storage layer
      ([storage.generateCertificate], [getCertificateByNumber],
      [revokeCertificate], [deleteEvent], [logActivity]);
    - [src/unnamed/part_011]: the drizzle schema of the tables involved;
    - [src/unnamed/part_012]: the HTTP routes
      [POST /registrations/:id/certificate], [GET /certificates/verify/:number]
      and [POST /certificates/:id/revoke].

    Timestamps ([new Date()], [Date.now()]) are milliseconds as [Z], passed in
    as the [now] argument of each operation. *)

From Stdlib Require Import String Ascii List ZArith Bool Lia.
From Stdlib Require Import DecimalN.
Import ListNotations.
Open Scope Z_scope.
Open Scope string_scope.

(** ** JavaScript helpers *)

Fixpoint string_of_uint (u : Decimal.uint) : string :=
  match u with
  | Decimal.Nil => ""
  | Decimal.D0 u => String "0" (string_of_uint u)
  | Decimal.D1 u => String "1" (string_of_uint u)
  | Decimal.D2 u => String "2" (string_of_uint u)
  | Decimal.D3 u => String "3" (string_of_uint u)
  | Decimal.D4 u => String "4" (string_of_uint u)
  | Decimal.D5 u => String "5" (string_of_uint u)
  | Decimal.D6 u => String "6" (string_of_uint u)
  | Decimal.D7 u => String "7" (string_of_uint u)
  | Decimal.D8 u => String "8" (string_of_uint u)
  | Decimal.D9 u => String "9" (string_of_uint u)
  end.

(** [n.toString()] and template interpolation [`${n}`] of an integer. *)
Definition string_of_Z (z : Z) : string :=
  match Z.to_int z with
  | Decimal.Pos u => string_of_uint u
  | Decimal.Neg u => "-" ++ string_of_uint u
  end.

(** [s.slice(-2)]: the last two characters, or the whole string when shorter. *)
Definition slice_last2 (s : string) : string :=
  substring (String.length s - 2) 2 s.

(** [s.padStart(2, '0')]. *)
Definition padStart2 (s : string) : string :=
  match String.length s with
  | O => "00"
  | S O => "0" ++ s
  | _ => s
  end.

(** ** [src/server/utils/certificate.ts] *)

Definition alphabet : string := "1234567890ABCDEFGHIJKLMNOPQRSTUVWXYZ".

(** [customAlphabet(alphabet, 10)] called as [nanoid(size)]: [size] characters,
    each drawn from [alphabet]; [rnd k] is the random index of position [k]. *)
Definition nanoid (rnd : nat -> nat) (size : nat) : string :=
  string_of_list_ascii
    (map (fun k => match get (Nat.modulo (rnd k) 36) alphabet with
                   | Some c => c
                   | None => "0"%char
                   end) (seq 0 size)).

(** [generateCertificateNumber()]: [fullYear] is [date.getFullYear()],
    [month0] is [date.getMonth()] (0-based). *)
Definition generateCertificateNumber (fullYear month0 : Z) (rnd : nat -> nat)
  : string :=
  let year := slice_last2 (string_of_Z fullYear) in
  let month := padStart2 (string_of_Z (month0 + 1)) in
  "MEDEVENT-" ++ year ++ month ++ "-" ++ nanoid rnd 6.

Definition is_digit (c : ascii) : bool :=
  let n := nat_of_ascii c in Nat.leb 48 n && Nat.leb n 57.

Definition is_upper (c : ascii) : bool :=
  let n := nat_of_ascii c in Nat.leb 65 n && Nat.leb n 90.

(** [/^MEDEVENT-\d{4}-[A-Z0-9]{6}$/.test(certificateNumber)]. *)
Definition validateCertificateNumber (certificateNumber : string) : bool :=
  prefix "MEDEVENT-" certificateNumber &&
  match list_ascii_of_string
          (substring 9 (String.length certificateNumber) certificateNumber) with
  | [d1; d2; d3; d4; h; x1; x2; x3; x4; x5; x6] =>
      forallb is_digit [d1; d2; d3; d4] && Ascii.eqb h "-" &&
      forallb (fun c => is_upper c || is_digit c) [x1; x2; x3; x4; x5; x6]
  | _ => false
  end.

(** ** Schema ([src/unnamed/part_011]), restricted to the columns the
    certificate subsystem reads or writes *)

Inductive registration_status := pending | approved | rejected.

Record user := mkUser {
  user_id : Z;
  email : string;
  fullName : string;
  organization : option string;
  position : option string }.

Record event := mkEvent {
  event_id : Z;
  title : string;
  startDate : Z;
  endDate : Z }.

(** The [event_speakers] and [event_schedules] columns that deleting an event
    involves: both tables reference [events] with [onDelete: "cascade"];
    [event_schedules.speaker_id] references [event_speakers] with no
    [onDelete] action. *)
Record speaker := mkSpeaker {
  speaker_id : Z;
  speaker_eventId : Z }.

Record schedule := mkSchedule {
  schedule_id : Z;
  schedule_eventId : Z;
  speakerId : option Z }.

Record registration := mkRegistration {
  registration_id : Z;
  eventId : Z;
  userId : Z;
  status : registration_status;
  attendanceConfirmed : bool }.

(** The [certificates] table.  [isRevoked] is [boolean(...).default(false)];
    no write path of the code stores [null] in it. *)
Record certificate := mkCertificate {
  certificate_id : Z;
  registrationId : Z;
  certificateNumber : string;
  qrCode : string;
  issuedDate : Z;
  isRevoked : bool;
  revokedReason : option string;
  revokedDate : option Z;
  revokedById : option Z;
  createdAt : Z;
  updatedAt : Z }.

Local Set Warnings "-register-all".

(** JSON values, as produced by [res.json(...)] and stored in [details]. *)
Inductive json :=
| JNull
| JBool (b : bool)
| JNum (n : Z)
| JStr (s : string)
| JDate (t : Z)
| JObj (fields : list (string * json)).

Record activity := mkActivity {
  activity_id : Z;
  activity_userId : Z;
  action : string;
  resourceType : string;
  resourceId : Z;
  details : json }.

(** The database: one list per table, in insertion order, and the [serial]
    counters of the tables the subsystem inserts into. *)
Record db := mkDb {
  users : list user;
  events : list event;
  eventSpeakers : list speaker;
  eventSchedules : list schedule;
  registrations : list registration;
  certificates : list certificate;
  activityLogs : list activity;
  certificates_seq : Z;
  activityLogs_seq : Z }.

Definition set_certificates (cs : list certificate) (s : db) : db :=
  mkDb s.(users) s.(events) s.(eventSpeakers) s.(eventSchedules)
       s.(registrations) cs s.(activityLogs)
       s.(certificates_seq) s.(activityLogs_seq).

Definition set_certificates_seq (n : Z) (s : db) : db :=
  mkDb s.(users) s.(events) s.(eventSpeakers) s.(eventSchedules)
       s.(registrations) s.(certificates) s.(activityLogs)
       n s.(activityLogs_seq).

(** ** A state and error monad for the [async] storage calls

    A thrown error keeps the writes done before it, as the database does. *)

(** The errors the subsystem can meet: Postgres [23503] (foreign key),
    [23505] (unique), [22021] (a text parameter holding a NUL character,
    refused when the statement is bound), [22001] (a value too long for a
    [varchar]); a [TypeError] of the route code (a property read on
    [undefined]); the [Error] thrown by the QR helper. *)
Inductive error :=
| FkViolation | UniqueViolation | InvalidText | ValueTooLong | TypeError
| QrRenderError.

Inductive result (A : Type) := Ok (a : A) | Err (e : error).
Arguments Ok {A} a.
Arguments Err {A} e.

Definition M (A : Type) := db -> result A * db.

Definition ret {A} (a : A) : M A := fun s => (Ok a, s).
Definition bind {A B} (m : M A) (k : A -> M B) : M B :=
  fun s => match m s with
           | (Ok a, s') => k a s'
           | (Err e, s') => (Err e, s')
           end.
Definition throw {A} (e : error) : M A := fun s => (Err e, s).
Definition get_db : M db := fun s => (Ok s, s).
Definition put_db (s : db) : M unit := fun _ => (Ok tt, s).

Notation "x <- m ;; k" := (bind m (fun x => k))
  (at level 61, m at next level, right associativity).

(** [try { ... } catch (error) { handler }]. *)
Definition try_catch {A} (m : M A) (h : error -> M A) : M A :=
  fun s => match m s with
           | (Err e, s') => h e s'
           | r => r
           end.

(** [s] holds a NUL character: Postgres refuses such a text parameter. *)
Definition has_nul (s : string) : bool :=
  existsb (fun c => Ascii.eqb c Ascii.zero) (list_ascii_of_string s).

(** ** Storage layer ([src/server/middleware/auth.ts])

    Each storage call is one SQL statement, which either takes effect as a
    whole or fails; a failed [INSERT] still consumes the value it drew from
    the [serial] sequence.  [now] is the instant of the call: the
    [new Date()] of the code and the [defaultNow()] of the columns it leaves
    out.  The text written by the certificate calls is produced by the
    issuance route (a [CERT-] number of digits and a PNG data URL); the texts
    a request supplies directly (the revocation reason, the number looked up
    by the verification route) are checked for NUL characters. *)

(** [db.query.certificates.findFirst({ where: eq(registrationId, rid) })]. *)
Definition findCertificateByRegistration (rid : Z) : M (option certificate) :=
  s <- get_db ;;
  ret (find (fun c => Z.eqb c.(registrationId) rid) s.(certificates)).

(** [db.update(certificates).set(f).where(eq(id, id)).returning()], taking
    the first returned row ([const [row] = ...]). *)
Definition updateCertificate (id : Z) (f : certificate -> certificate)
  : M (option certificate) :=
  s <- get_db ;;
  let cs := map (fun c => if Z.eqb c.(certificate_id) id then f c else c)
                s.(certificates) in
  _ <- put_db (set_certificates cs s) ;;
  ret (find (fun c => Z.eqb c.(certificate_id) id) cs).

(** [db.insert(certificates).values({registrationId, certificateNumber,
    qrCode, issuedDate}).returning()]: [id] is [serial] (drawn first, and
    kept drawn when the insert fails), [certificate_number] is
    [varchar(50)] and [unique()], [registration_id] references
    [event_registrations] (checked at the end of the statement), the other
    columns take their defaults. *)
Definition insertCertificate (rid : Z) (number qr : string) (now : Z)
  : M certificate :=
  s <- get_db ;;
  let id := s.(certificates_seq) in
  _ <- put_db (set_certificates_seq (id + 1) s) ;;
  if Nat.ltb 50 (String.length number) then throw ValueTooLong
  else if existsb (fun c => String.eqb c.(certificateNumber) number)
                  s.(certificates)
  then throw UniqueViolation
  else if negb (existsb (fun r => Z.eqb r.(registration_id) rid)
                        s.(registrations))
  then throw FkViolation
  else
    let row := mkCertificate id rid number qr now false None None None now now in
    _ <- put_db (set_certificates (s.(certificates) ++ [row])%list
                   (set_certificates_seq (id + 1) s)) ;;
    ret row.

(** The [.set({...})] of the reissue branch of [generateCertificate]. *)
Definition reissue_fields (qr : string) (now : Z) (c : certificate)
  : certificate :=
  mkCertificate c.(certificate_id) c.(registrationId) c.(certificateNumber)
                qr now false None None None c.(createdAt) now.

(** Second half of [storage.generateCertificate], once the lookup of the
    existing certificate has returned [existing]. *)
Definition generateCertificate_write (existing : option certificate)
  (rid : Z) (qr number : string) (now : Z) : M (option certificate) :=
  match existing with
  | Some e =>
      if e.(isRevoked)
      then updateCertificate e.(certificate_id) (reissue_fields qr now)
      else ret (Some e)
  | None =>
      c <- insertCertificate rid number qr now ;;
      ret (Some c)
  end.

(** [storage.generateCertificate(registrationId, qrCode, certificateNumber)]. *)
Definition generateCertificate (rid : Z) (qr number : string) (now : Z)
  : M (option certificate) :=
  existing <- findCertificateByRegistration rid ;;
  generateCertificate_write existing rid qr number now.

(** The [.set({...})] of [revokeCertificate]. *)
Definition revoke_fields (revokedBy : Z) (reason : string) (now : Z)
  (c : certificate) : certificate :=
  mkCertificate c.(certificate_id) c.(registrationId) c.(certificateNumber)
                c.(qrCode) c.(issuedDate) true (Some reason) (Some now)
                (Some revokedBy) c.(createdAt) now.

(** [certificates.revoked_by_id] references [users]: Postgres checks the key
    of an updated row when the new key is not null and differs from the old
    one. *)
Definition revoke_fk_fails (id revokedBy : Z) (s : db) : bool :=
  existsb (fun c => Z.eqb c.(certificate_id) id &&
                    negb (match c.(revokedById) with
                          | Some b => Z.eqb b revokedBy
                          | None => false
                          end)) s.(certificates) &&
  negb (existsb (fun u => Z.eqb u.(user_id) revokedBy) s.(users)).

(** [storage.revokeCertificate(id, revokedById, reason)]. *)
Definition revokeCertificate (id revokedBy : Z) (reason : string) (now : Z)
  : M (option certificate) :=
  if has_nul reason then throw InvalidText
  else
    s <- get_db ;;
    if revoke_fk_fails id revokedBy s then throw FkViolation
    else updateCertificate id (revoke_fields revokedBy reason now).

(** A speaker row that deleting event [id] removes (by cascade) and that no
    remaining speaker row replaces under the same key. *)
Definition speaker_deleted (id : Z) (s : db) (sp : Z) : bool :=
  existsb (fun x => Z.eqb x.(speaker_id) sp && Z.eqb x.(speaker_eventId) id)
          s.(eventSpeakers) &&
  negb (existsb (fun x => Z.eqb x.(speaker_id) sp &&
                          negb (Z.eqb x.(speaker_eventId) id))
                s.(eventSpeakers)).

(** Deleting event [id] leaves a schedule of another event pointing at one of
    its speakers: the [speaker_id] foreign key refuses the delete. *)
Definition delete_blocked (id : Z) (s : db) : bool :=
  existsb (fun sc => negb (Z.eqb sc.(schedule_eventId) id) &&
                     match sc.(speakerId) with
                     | Some sp => speaker_deleted id s sp
                     | None => false
                     end) s.(eventSchedules).

(** [storage.deleteEvent(id)]: [event_speakers.event_id],
    [event_schedules.event_id], [event_registrations.event_id] and
    [certificates.registration_id] are declared [onDelete: "cascade"], so the
    delete removes the event's speakers, schedules and registrations and the
    certificates of those registrations, unless [delete_blocked]. *)
Definition deleteEvent (id : Z) : M (option event) :=
  s <- get_db ;;
  if delete_blocked id s then throw FkViolation
  else
    let gone := filter (fun r => Z.eqb r.(eventId) id) s.(registrations) in
    let is_gone rid := existsb (fun r => Z.eqb r.(registration_id) rid) gone in
    _ <- put_db (mkDb s.(users)
                      (filter (fun e => negb (Z.eqb e.(event_id) id)) s.(events))
                      (filter (fun x => negb (Z.eqb x.(speaker_eventId) id))
                              s.(eventSpeakers))
                      (filter (fun x => negb (Z.eqb x.(schedule_eventId) id))
                              s.(eventSchedules))
                      (filter (fun r => negb (Z.eqb r.(eventId) id))
                              s.(registrations))
                      (filter (fun c => negb (is_gone c.(registrationId)))
                              s.(certificates))
                      s.(activityLogs) s.(certificates_seq)
                      s.(activityLogs_seq)) ;;
    ret (find (fun e => Z.eqb e.(event_id) id) s.(events)).

(** [s] with the row [a] appended to [activity_logs]. *)
Definition append_activity (s : db) (a : activity) : db :=
  mkDb s.(users) s.(events) s.(eventSpeakers) s.(eventSchedules)
       s.(registrations) s.(certificates)
       (s.(activityLogs) ++ [a])%list s.(certificates_seq)
       (s.(activityLogs_seq) + 1).

(** [storage.logActivity(userId, action, details, resourceType, resourceId)]
    ([activity_logs.user_id] references [users]; [details] is a [json]
    column).  The ids of [activity_logs] are read by no route of the
    subsystem: the model numbers the rows it appends and leaves the counter
    as it was on a failed insert. *)
Definition logActivity (uid : Z) (act : string) (det : json) (rtype : string)
  (rid : Z) : M activity :=
  s <- get_db ;;
  if negb (existsb (fun u => Z.eqb u.(user_id) uid) s.(users))
  then throw FkViolation
  else
    let row := mkActivity s.(activityLogs_seq) uid act rtype rid det in
    _ <- put_db (append_activity s row) ;;
    ret row.

(** The joined row of [getCertificateByNumber]: the registration with its
    event and the user columns [id, fullName, email, organization, position]. *)
Record certificate_view := mkCertificateView {
  view_certificate : certificate;
  view_registration : registration;
  view_event : option event;
  view_user : option user }.

(** [storage.getCertificateByNumber(certificateNumber)]; [None] in the second
    component stands for a dangling [registration] relation. *)
Definition getCertificateByNumber (number : string)
  : M (option (certificate * option certificate_view)) :=
  if has_nul number then throw InvalidText
  else
    s <- get_db ;;
    match find (fun c => String.eqb c.(certificateNumber) number)
               s.(certificates) with
    | None => ret None
    | Some c =>
        match find (fun r => Z.eqb r.(registration_id) c.(registrationId))
                   s.(registrations) with
        | None => ret (Some (c, None))
        | Some r =>
            ret (Some (c, Some (mkCertificateView c r
                   (find (fun e => Z.eqb e.(event_id) r.(eventId)) s.(events))
                   (find (fun u => Z.eqb u.(user_id) r.(userId)) s.(users)))))
        end
    end.

(** ** Routes ([src/unnamed/part_012]) *)

(** An HTTP response: status code and JSON body. *)
Definition http := (Z * json)%type.

Definition json_of_option_string (o : option string) : json :=
  match o with Some v => JStr v | None => JNull end.
Definition json_of_option_date (o : option Z) : json :=
  match o with Some t => JDate t | None => JNull end.
Definition json_of_option_num (o : option Z) : json :=
  match o with Some n => JNum n | None => JNull end.

(** A [certificates] row serialised by [res.json]. *)
Definition json_of_certificate (c : certificate) : json :=
  JObj [("id", JNum c.(certificate_id));
        ("registrationId", JNum c.(registrationId));
        ("certificateNumber", JStr c.(certificateNumber));
        ("qrCode", JStr c.(qrCode));
        ("issuedDate", JDate c.(issuedDate));
        ("isRevoked", JBool c.(isRevoked));
        ("revokedReason", json_of_option_string c.(revokedReason));
        ("revokedDate", json_of_option_date c.(revokedDate));
        ("revokedById", json_of_option_num c.(revokedById));
        ("createdAt", JDate c.(createdAt));
        ("updatedAt", JDate c.(updatedAt))].

Section Routes.

(** [QRCode.toDataURL(url, {errorCorrectionLevel: 'H', ...})]: the data URL,
    or [None] when the promise rejects (a URL too long for a level-H code). *)
Variable toDataURL : string -> option string.

(** [generateCertificate(url)] of [src/server/utils/certificate.ts]: it
    rethrows a rendering failure as [Error('Failed to generate certificate
    QR code')]. *)
Definition generateCertificate_qr (url : string) : M string :=
  match toDataURL url with
  | Some q => ret q
  | None => throw QrRenderError
  end.

(** The certificate number built by the issuance route. *)
Definition route_certificate_number (now regId : Z) : string :=
  "CERT-" ++ string_of_Z now ++ "-" ++ string_of_Z regId.

(** [`${req.protocol}://${req.get("host")}/certificates/verify/${n}`]. *)
Definition verification_url (protocol host number : string) : string :=
  protocol ++ "://" ++ host ++ "/certificates/verify/" ++ number.

(** [POST /registrations/:id/certificate]; [actor] is [req.user.id], [now]
    is the route's [Date.now()], [storedAt] the instant of the storage call. *)
Definition postRegistrationCertificate (protocol host : string)
  (actor regId now storedAt : Z) : M http :=
  try_catch
    (let certificateNumber := route_certificate_number now regId in
     let verificationUrl := verification_url protocol host certificateNumber in
     qr <- generateCertificate_qr verificationUrl ;;
     oc <- generateCertificate regId qr certificateNumber storedAt ;;
     match oc with
     | None => throw TypeError
     | Some cert =>
         _ <- logActivity actor "generate_certificate"
                (JObj [("certificateNumber", JStr certificateNumber)])
                "certificate" cert.(certificate_id) ;;
         ret (201, json_of_certificate cert)
     end)
    (fun _ => ret (500, JObj [("message", JStr "Failed to generate certificate")])).

End Routes.

(** [GET /certificates/verify/:number]. *)
Definition getVerifyCertificate (number : string) : M http :=
  try_catch
    (found <- getCertificateByNumber number ;;
     match found with
     | None =>
         ret (404, JObj [("message", JStr "Certificate not found");
                         ("valid", JBool false)])
     | Some (c, view) =>
         if c.(isRevoked) then
           ret (200, JObj [("message", JStr "Certificate has been revoked");
                           ("valid", JBool false);
                           ("revoked", JBool true);
                           ("revokedReason", json_of_option_string c.(revokedReason));
                           ("revokedDate", json_of_option_date c.(revokedDate))])
         else
           match view with
           | None => throw TypeError
           | Some v =>
               _ <- logActivity v.(view_registration).(userId)
                      "verify_certificate"
                      (JObj [("certificateNumber", JStr number)])
                      "certificate" c.(certificate_id) ;;
               match v.(view_event), v.(view_user) with
               | Some e, Some u =>
                   ret (200, JObj
                     [("message", JStr "Certificate is valid");
                      ("valid", JBool true);
                      ("certificate", JObj
                        [("certificateNumber", JStr c.(certificateNumber));
                         ("issuedDate", JDate c.(issuedDate));
                         ("event", JObj [("title", JStr e.(title));
                                         ("startDate", JDate e.(startDate));
                                         ("endDate", JDate e.(endDate))]);
                         ("user", JObj
                           [("fullName", JStr u.(fullName));
                            ("organization", json_of_option_string u.(organization));
                            ("position", json_of_option_string u.(position))])])])
               | _, _ => throw TypeError
               end
           end
     end)
    (fun _ => ret (500, JObj [("message", JStr "Failed to verify certificate")])).

(** [POST /certificates/:id/revoke]; [reason] is [req.body.reason], [None]
    when absent or [null]; [!reason] also holds for the empty string. *)
Definition postRevokeCertificate (actor certificateId : Z)
  (reason : option string) (now : Z) : M http :=
  try_catch
    (match reason with
     | None | Some EmptyString =>
         ret (400, JObj [("message", JStr "Revocation reason is required")])
     | Some r =>
         orc <- revokeCertificate certificateId actor r now ;;
         match orc with
         | None => throw TypeError
         | Some rc =>
             _ <- logActivity actor "revoke_certificate"
                    (JObj [("certificateNumber", JStr rc.(certificateNumber));
                           ("reason", JStr r)])
                    "certificate" certificateId ;;
             ret (200, json_of_certificate rc)
         end
     end)
    (fun _ => ret (500, JObj [("message", JStr "Failed to revoke certificate")])).

(** ** Executions *)

(** Requests served one after the other. *)
Inductive op :=
| OpIssue (protocol host : string) (actor regId now storedAt : Z)
| OpVerify (number : string)
| OpRevoke (actor certificateId : Z) (reason : option string) (now : Z)
| OpDeleteEvent (id : Z).

Definition run_op (toDataURL : string -> option string) (o : op) : M unit :=
  match o with
  | OpIssue p h a r n t =>
      _ <- postRegistrationCertificate toDataURL p h a r n t ;; ret tt
  | OpVerify n => _ <- getVerifyCertificate n ;; ret tt
  | OpRevoke a c r n => _ <- postRevokeCertificate a c r n ;; ret tt
  | OpDeleteEvent id => _ <- deleteEvent id ;; ret tt
  end.

Definition exec (toDataURL : string -> option string) (o : op) (s : db) : db :=
  snd (run_op toDataURL o s).

(** States reachable from an empty [certificates] table.  [reach_other]
    stands for the routes outside the subsystem (users, events,
    registrations, attendance): they never write to [certificates]. *)
Inductive reachable (toDataURL : string -> option string) : db -> Prop :=
| reach_init : forall s, s.(certificates) = [] -> reachable toDataURL s
| reach_op : forall s o, reachable toDataURL s ->
    reachable toDataURL (exec toDataURL o s)
| reach_other : forall s s', reachable toDataURL s ->
    s'.(certificates) = s.(certificates) ->
    s'.(certificates_seq) = s.(certificates_seq) ->
    reachable toDataURL s'.

(** Overlapping calls of [storage.generateCertificate]: each call awaits its
    [findFirst] and then its write, and other requests may run in between. *)
Inductive issue_thread :=
| IssueStart (rid : Z) (qr number : string) (now : Z)
| IssueLooked (existing : option certificate) (rid : Z) (qr number : string)
    (now : Z)
| IssueDone (r : result (option certificate)).

Definition thread_step (t : issue_thread) : M issue_thread :=
  match t with
  | IssueStart rid qr number now =>
      existing <- findCertificateByRegistration rid ;;
      ret (IssueLooked existing rid qr number now)
  | IssueLooked existing rid qr number now =>
      try_catch
        (r <- generateCertificate_write existing rid qr number now ;;
         ret (IssueDone (Ok r)))
        (fun e => ret (IssueDone (Err e)))
  | IssueDone r => ret (IssueDone r)
  end.

Inductive conc_step : db * list issue_thread -> db * list issue_thread -> Prop :=
| conc_step_intro : forall s pre t post,
    conc_step (s, (pre ++ t :: post)%list)
              (snd (thread_step t s),
               (pre ++ (match fst (thread_step t s) with
                        | Ok t' => t'
                        | Err e => IssueDone (Err e)
                        end) :: post)%list).

Inductive conc_steps : db * list issue_thread -> db * list issue_thread -> Prop :=
| conc_refl : forall c, conc_steps c c
| conc_trans : forall c1 c2 c3,
    conc_step c1 c2 -> conc_steps c2 c3 -> conc_steps c1 c3.

(** ** A concrete database for the examples *)

(** An injective stand-in for the data URL of a QR code. *)
Definition qr_stub (url : string) : string := "data:image/png;base64," ++ url.

(** A stand-in renderer: it fails on URLs longer than 1273 characters, the
    byte capacity of a version-40 code at level H. *)
Definition qr_render (url : string) : option string :=
  if Nat.leb (String.length url) 1273 then Some (qr_stub url) else None.

Definition alice : user :=
  mkUser 7 "alice@example.org" "Alice Martin" (Some "CHU Alger") (Some "Nurse").

Definition congress : event := mkEvent 3 "Cardiology Congress" 1000 2000.

(** Registration 42 of user 7 to event 3, still pending, attendance not
    confirmed. *)
Definition reg42 : registration := mkRegistration 42 3 7 pending false.

Definition db0 : db := mkDb [alice] [congress] [] [] [reg42] [] [] 1 1.

(** [db0] after the issuance of registration 42, then after its revocation. *)
Definition db1 :=
  exec qr_render (OpIssue "https" "host" 7 42 1700000000000 1700000000000) db0.
Definition db2 := exec qr_render (OpRevoke 7 1 (Some "duplicate") 1700000001000) db1.
(** ** Invariants of the certificates table *)

(** Each [registrationId] labels at most one row. *)
Definition one_row_per_registration (s : db) : Prop :=
  NoDup (map registrationId s.(certificates)).

(** The revocation columns are set together, exactly when [isRevoked]. *)
Definition revocation_consistent (c : certificate) : Prop :=
  (c.(isRevoked) = true ->
     c.(revokedReason) <> None /\ c.(revokedDate) <> None /\
     c.(revokedById) <> None) /\
  (c.(isRevoked) = false ->
     c.(revokedReason) = None /\ c.(revokedDate) = None /\
     c.(revokedById) = None).

Definition ledger_consistent (s : db) : Prop :=
  Forall revocation_consistent s.(certificates).

(** [P] holds after [m] (whether [m] returns or throws) when it held before. *)
Definition inv_M (P : db -> Prop) {A} (m : M A) : Prop :=
  forall s, P s -> P (snd (m s)).

(** Runs the threads in the order given by [schedule] (thread indices). *)
Fixpoint run_schedule (schedule : list nat)
  (c : db * list issue_thread) : db * list issue_thread :=
  match schedule with
  | [] => c
  | i :: rest =>
      let (s, ts) := c in
      match nth_error ts i with
      | None => run_schedule rest c
      | Some t =>
          run_schedule rest
            (snd (thread_step t s),
             (firstn i ts ++ (match fst (thread_step t s) with
                              | Ok t' => t'
                              | Err e => IssueDone (Err e)
                              end) :: skipn (S i) ts)%list)
      end
  end.

Definition rows_of_registration (rid : Z) (s : db) : nat :=
  length (filter (fun c => Z.eqb c.(registrationId) rid) s.(certificates)).

(** The value of key [k] of a JSON object. *)
Definition json_field (k : string) (j : json) : option json :=
  match j with
  | JObj fs => match find (fun kv => String.eqb (fst kv) k) fs with
               | Some (_, v) => Some v
               | None => None
               end
  | _ => None
  end.

(** A user row with its email blanked. *)
Definition forget_email (u : user) : user :=
  mkUser u.(user_id) "" u.(fullName) u.(organization) u.(position).

(** [s] with its [users] table replaced by [us]. *)
Definition with_users (s : db) (us : list user) : db :=
  mkDb us s.(events) s.(eventSpeakers) s.(eventSchedules) s.(registrations)
       s.(certificates) s.(activityLogs) s.(certificates_seq) s.(activityLogs_seq).

(** The keys of the holder summary [certificate.user] of a response body. *)
Definition holder_keys (body : json) : option (list string) :=
  match json_field "certificate" body with
  | Some cert =>
      match json_field "user" cert with
      | Some (JObj fs) => Some (map fst fs)
      | _ => None
      end
  | None => None
  end.

(** The [certificate_number] column is [unique()]. *)
Definition unique_numbers (s : db) : Prop :=
  NoDup (map certificateNumber s.(certificates)).

(** The [serial] ids are pairwise distinct and below the next value of the
    sequence. *)
Definition ids_below_seq (s : db) : Prop :=
  Forall (fun i => i < s.(certificates_seq)) (map certificate_id s.(certificates)) /\
  NoDup (map certificate_id s.(certificates)).

(** [s'] has the [users], [events] and [event_registrations] tables of [s]. *)
Definition same_tables (s s' : db) : Prop :=
  s'.(users) = s.(users) /\ s'.(events) = s.(events) /\
  s'.(registrations) = s.(registrations).

(** ** Registration updates ([src/server/middleware/auth.ts]) *)

(** [db.update(eventRegistrations).set(f).where(eq(id, id)).returning()],
    taking the first returned row; the [notes] and [updatedAt] columns are not
    part of [registration]. *)
Definition updateRegistration (id : Z) (f : registration -> registration)
  : M (option registration) :=
  s <- get_db ;;
  let rs := map (fun r => if Z.eqb r.(registration_id) id then f r else r)
                s.(registrations) in
  _ <- put_db (mkDb s.(users) s.(events) s.(eventSpeakers) s.(eventSchedules)
                    rs s.(certificates) s.(activityLogs)
                    s.(certificates_seq) s.(activityLogs_seq)) ;;
  ret (find (fun r => Z.eqb r.(registration_id) id) rs).

(** [storage.updateRegistrationStatus(id, status, notes)]. *)
Definition updateRegistrationStatus (id : Z) (st : registration_status)
  : M (option registration) :=
  updateRegistration id (fun r => mkRegistration r.(registration_id) r.(eventId)
                                    r.(userId) st r.(attendanceConfirmed)).

(** [storage.confirmAttendance(id)]. *)
Definition confirmAttendance (id : Z) : M (option registration) :=
  updateRegistration id (fun r => mkRegistration r.(registration_id) r.(eventId)
                                    r.(userId) r.(status) true).

(** ** Authentication middleware ([src/server/middleware/auth.ts]) *)

(** [str.split(" ")]: every single space separates two fields. *)
Fixpoint split_space (s : string) : list string :=
  match s with
  | EmptyString => [EmptyString]
  | String c rest =>
      if Ascii.eqb c " " then EmptyString :: split_space rest
      else match split_space rest with
           | w :: ws => String c w :: ws
           | [] => [String c EmptyString]
           end
  end.

(** [s] contains no space character. *)
Definition no_space (s : string) : bool :=
  forallb (fun c => negb (Ascii.eqb c " ")) (list_ascii_of_string s).

(** [req.user] as set from the decoded token. *)
Record req_user := mkReqUser {
  req_id : Z;
  req_email : string;
  req_role : string;
  req_permissions : list string }.

(** A middleware either calls [next()] with [req.user] or answers. *)
Inductive mw_result :=
| MwNext (u : req_user)
| MwRespond (status : Z) (body : json).

(** [process.env.JWT_SECRET || "your_jwt_secret"]. *)
Definition jwt_secret (env : option string) : string :=
  match env with
  | Some v => if String.eqb v "" then "your_jwt_secret" else v
  | None => "your_jwt_secret"
  end.

(** [authenticateJWT]; [verify token secret] is [jwt.verify], [None] when it
    throws; [authorization] is [req.headers.authorization]. *)
Definition authenticateJWT (verify : string -> string -> option req_user)
  (env : option string) (authorization : option string) : mw_result :=
  match authorization with
  | None | Some EmptyString =>
      MwRespond 401 (JObj [("message", JStr "Authentication required")])
  | Some h =>
      match nth_error (split_space h) 1 with
      | None | Some EmptyString =>
          MwRespond 401 (JObj [("message", JStr "Authentication token is missing")])
      | Some token =>
          match verify token (jwt_secret env) with
          | Some u => MwNext u
          | None => MwRespond 403 (JObj [("message", JStr "Invalid or expired token")])
          end
      end
  end.

(** [checkPermission(permission)] applied to [req.user]. *)
Definition checkPermission (permission : string) (user : option req_user)
  : mw_result :=
  match user with
  | None => MwRespond 401 (JObj [("message", JStr "Authentication required")])
  | Some u =>
      if String.eqb u.(req_role) "super_admin" then MwNext u
      else if existsb (String.eqb permission) u.(req_permissions) then MwNext u
      else MwRespond 403 (JObj [("message", JStr "Permission denied")])
  end.

(** [checkRole(roles)] applied to [req.user]. *)
Definition checkRole (roles : list string) (user : option req_user) : mw_result :=
  match user with
  | None => MwRespond 401 (JObj [("message", JStr "Authentication required")])
  | Some u =>
      if existsb (String.eqb u.(req_role)) roles then MwNext u
      else MwRespond 403
             (JObj [("message", JStr "Access denied: Insufficient role privileges")])
  end.

(** The chain [authenticateJWT, checkPermission(permission)] of the protected
    routes of [src/unnamed/part_012]. *)
Definition guard (verify : string -> string -> option req_user)
  (env authorization : option string) (permission : string) : mw_result :=
  match authenticateJWT verify env authorization with
  | MwNext u => checkPermission permission (Some u)
  | r => r
  end.

(** ** Event registration ([storage.registerForEvent]) *)

Module Registration.

(** The [events] columns read by [registerForEvent]. *)
Record event_row := mkEventRow {
  ev_id : Z;
  capacity : option Z;
  autoApproveRegistrations : option bool }.

(** The fields of [req.body] that [registerForEvent] stores, for a body
    without an [id] key (a body [id] would replace the serial id); the
    [notes] and timestamp columns it may also set are not modelled. *)
Record registration_body := mkRegistrationBody {
  body_eventId : option Z;
  body_userId : option Z;
  body_attendanceConfirmed : option bool }.

(** [{ eventId, userId, ...req.body }] of [POST /events/:id/register]. *)
Record registration_data := mkRegistrationData {
  data_eventId : Z;
  data_userId : Z;
  data_attendanceConfirmed : option bool }.

Definition registrationData_of_request (eventId userId : Z)
  (body : registration_body) : registration_data :=
  mkRegistrationData
    (match body.(body_eventId) with Some e => e | None => eventId end)
    (match body.(body_userId) with Some u => u | None => userId end)
    body.(body_attendanceConfirmed).

Record rstate := mkRState {
  r_events : list event_row;
  r_userIds : list Z;
  r_registrations : list registration;
  r_seq : Z }.

Inductive reg_error := EventNotFound | AlreadyRegistered | CapacityReached
                     | UserForeignKey.

Inductive reg_outcome := Registered (r : registration) | Failed (e : reg_error).

Definition approved_count (eid : Z) (s : rstate) : nat :=
  length (filter (fun r => Z.eqb r.(eventId) eid &&
                           match r.(status) with approved => true | _ => false end)
                 s.(r_registrations)).

(** [event.capacity && registrationsCount[0]?.count >= event.capacity]. *)
Definition capacity_reached (cap : option Z) (count : nat) : bool :=
  match cap with
  | Some c => negb (Z.eqb c 0) && Z.leb c (Z.of_nat count)
  | None => false
  end.

(** [storage.registerForEvent(registrationData)] run alone: its [findFirst],
    [select count] and [insert] are separate statements, and no other request
    runs between them.  The [insert] draws the serial id first and keeps it
    drawn when the [user_id] foreign key refuses the row. *)
Definition registerForEvent (d : registration_data) (s : rstate)
  : reg_outcome * rstate :=
  match find (fun e => Z.eqb e.(ev_id) d.(data_eventId)) s.(r_events) with
  | None => (Failed EventNotFound, s)
  | Some ev =>
      if existsb (fun r => Z.eqb r.(eventId) d.(data_eventId) &&
                           Z.eqb r.(userId) d.(data_userId)) s.(r_registrations)
      then (Failed AlreadyRegistered, s)
      else if capacity_reached ev.(capacity) (approved_count d.(data_eventId) s)
      then (Failed CapacityReached, s)
      else if negb (existsb (Z.eqb d.(data_userId)) s.(r_userIds))
      then (Failed UserForeignKey,
            mkRState s.(r_events) s.(r_userIds) s.(r_registrations) (s.(r_seq) + 1))
      else
        let st := match ev.(autoApproveRegistrations) with
                  | Some true => approved
                  | _ => pending
                  end in
        let row := mkRegistration s.(r_seq) d.(data_eventId) d.(data_userId) st
                     (match d.(data_attendanceConfirmed) with
                      | Some b => b
                      | None => false
                      end) in
        (Registered row,
         mkRState s.(r_events) s.(r_userIds)
                  (s.(r_registrations) ++ [row])%list (s.(r_seq) + 1))
  end.

End Registration.

(** ** Proofs *)

Example validate_ok : validateCertificateNumber "MEDEVENT-2610-AB12CD" = true.
Proof. reflexivity. Qed.
Example gen_ex :
  generateCertificateNumber 2026 9 (fun k => (10 + k)%nat) = "MEDEVENT-2610-ABCDEF".
Proof. reflexivity. Qed.

Section Invariance.

Variable P : db -> Prop.

Lemma inv_ret {A} (a : A) : inv_M P (ret a).
Proof. intros s H; exact H. Qed.

Lemma inv_throw {A} (e : error) : inv_M P (@throw A e).
Proof. intros s H; exact H. Qed.

Lemma inv_bind {A B} (m : M A) (k : A -> M B) :
  inv_M P m -> (forall a, inv_M P (k a)) -> inv_M P (bind m k).
Proof.
  intros Hm Hk s Hs; unfold bind.
  specialize (Hm s Hs); destruct (m s) as [[a|e] s']; simpl in *; auto.
  apply Hk; exact Hm.
Qed.

Lemma inv_try_catch {A} (m : M A) (h : error -> M A) :
  inv_M P m -> (forall e, inv_M P (h e)) -> inv_M P (try_catch m h).
Proof.
  intros Hm Hh s Hs; unfold try_catch.
  specialize (Hm s Hs); destruct (m s) as [[a|e] s']; simpl in *; auto.
  apply Hh; exact Hm.
Qed.

Lemma inv_generateCertificate_qr enc url :
  inv_M P (generateCertificate_qr enc url).
Proof.
  unfold generateCertificate_qr; destruct (enc url); [apply inv_ret|apply inv_throw].
Qed.

(** Invariants that only look at the [certificates] table. *)
Hypothesis P_certs : forall s s', s.(certificates) = s'.(certificates) ->
  P s -> P s'.

Lemma inv_findCertificateByRegistration rid :
  inv_M P (findCertificateByRegistration rid).
Proof. intros s H; exact H. Qed.

Lemma inv_getCertificateByNumber n : inv_M P (getCertificateByNumber n).
Proof.
  intros s H; unfold getCertificateByNumber, bind, get_db, ret, throw.
  destruct (has_nul n); simpl; [exact H|].
  destruct (find _ _) as [c|]; [destruct (find _ _)|]; exact H.
Qed.

Lemma inv_logActivity u a d t r : inv_M P (logActivity u a d t r).
Proof.
  intros s H; unfold logActivity, bind, get_db, put_db, ret, throw; simpl.
  destruct (negb _); simpl; [exact H|].
  apply (P_certs s); [reflexivity|exact H].
Qed.

End Invariance.

Ltac inv_route :=
  repeat match goal with
  | |- inv_M _ (bind _ _) => apply inv_bind; [|intros ?]
  | |- inv_M _ (try_catch _ _) => apply inv_try_catch; [|intros ?]
  | |- inv_M _ (ret _) => apply inv_ret
  | |- inv_M _ (throw _) => apply inv_throw
  | |- inv_M _ (logActivity _ _ _ _ _) => apply inv_logActivity
  | |- inv_M _ (getCertificateByNumber _) => apply inv_getCertificateByNumber
  | x : option _ |- _ => destruct x
  | x : (_ * _)%type |- _ => destruct x
  | x : bool |- _ => destruct x
  end.

Section Routes_invariance.

Variable P : db -> Prop.
Hypothesis P_certs : forall s s', s.(certificates) = s'.(certificates) ->
  P s -> P s'.
Hypothesis P_empty : forall s, s.(certificates) = [] -> P s.
Hypothesis P_generate : forall rid qr n t,
  inv_M P (generateCertificate rid qr n t).
Hypothesis P_revoke : forall id by_ r t, inv_M P (revokeCertificate id by_ r t).
Hypothesis P_delete : forall id, inv_M P (deleteEvent id).

Lemma inv_postRegistrationCertificate enc p h a r n t :
  inv_M P (postRegistrationCertificate enc p h a r n t).
Proof.
  unfold postRegistrationCertificate.
  apply inv_try_catch; [|intros; apply inv_ret].
  apply inv_bind; [apply inv_generateCertificate_qr|intros qr].
  apply inv_bind; [apply P_generate|intros oc].
  destruct oc; inv_route; auto using inv_logActivity.
Qed.

Lemma inv_getVerifyCertificate n : inv_M P (getVerifyCertificate n).
Proof.
  unfold getVerifyCertificate.
  apply inv_try_catch; [|intros; apply inv_ret].
  apply inv_bind; [apply inv_getCertificateByNumber; exact P_certs|intros f].
  destruct f as [[c v]|]; [|apply inv_ret].
  destruct (isRevoked c); [apply inv_ret|].
  destruct v as [v|]; [|apply inv_throw].
  apply inv_bind; [apply inv_logActivity; exact P_certs|intros ?].
  destruct (view_event v), (view_user v); first [apply inv_ret|apply inv_throw].
Qed.

Lemma inv_postRevokeCertificate a c r n :
  inv_M P (postRevokeCertificate a c r n).
Proof.
  unfold postRevokeCertificate.
  apply inv_try_catch; [|intros; apply inv_ret].
  destruct r as [[|ch r]|]; try apply inv_ret.
  apply inv_bind; [apply P_revoke|intros orc].
  destruct orc; [|apply inv_throw].
  apply inv_bind; [apply inv_logActivity; exact P_certs|intros; apply inv_ret].
Qed.

Lemma inv_run_op enc o : inv_M P (run_op enc o).
Proof.
  destruct o; simpl; apply inv_bind; intros; try apply inv_ret.
  - apply inv_postRegistrationCertificate.
  - apply inv_getVerifyCertificate.
  - apply inv_postRevokeCertificate.
  - apply P_delete.
Qed.

Lemma reachable_inv enc s : reachable enc s -> P s.
Proof.
  induction 1.
  - apply P_empty; assumption.
  - apply inv_run_op; assumption.
  - apply (P_certs s); [symmetry; assumption|assumption].
Qed.

End Routes_invariance.

(** Effect of the storage writes on the [certificates] table. *)
Lemma updateCertificate_certificates id f s :
  (snd (updateCertificate id f s)).(certificates) =
  map (fun c => if Z.eqb c.(certificate_id) id then f c else c) s.(certificates).
Proof. reflexivity. Qed.

Lemma insertCertificate_certificates rid n qr t s :
  (snd (insertCertificate rid n qr t s)).(certificates) = s.(certificates) \/
  (snd (insertCertificate rid n qr t s)).(certificates) =
    (s.(certificates) ++
     [mkCertificate s.(certificates_seq) rid n qr t false None None None t t])%list.
Proof.
  unfold insertCertificate, bind, get_db, put_db, ret, throw; simpl.
  destruct (Nat.ltb _ _); [left; reflexivity|].
  destruct (existsb _ _); [left; reflexivity|].
  destruct (negb _); [left|right]; reflexivity.
Qed.

Lemma insertCertificate_seq rid n qr t s :
  (snd (insertCertificate rid n qr t s)).(certificates_seq) =
  s.(certificates_seq) + 1.
Proof.
  unfold insertCertificate, bind, get_db, put_db, ret, throw; simpl.
  destruct (Nat.ltb _ _); [reflexivity|].
  destruct (existsb _ _); [reflexivity|].
  destruct (negb _); reflexivity.
Qed.

(** [revokeCertificate] either fails before writing or is the update. *)
Lemma revokeCertificate_cases id by_ r t s :
  (exists e, revokeCertificate id by_ r t s = (Err e, s)) \/
  revokeCertificate id by_ r t s = updateCertificate id (revoke_fields by_ r t) s.
Proof.
  unfold revokeCertificate, bind, get_db, throw.
  destruct (has_nul r); [left; eexists; reflexivity|].
  destruct (revoke_fk_fails id by_ s); [left; eexists; reflexivity|right; reflexivity].
Qed.

Lemma inv_revokeCertificate P id by_ r t :
  inv_M P (updateCertificate id (revoke_fields by_ r t)) ->
  inv_M P (revokeCertificate id by_ r t).
Proof.
  intros Hu s Hs; destruct (revokeCertificate_cases id by_ r t s) as [[e ->]| ->];
    [exact Hs|apply Hu; exact Hs].
Qed.

Lemma filter_all {A} (l : list A) : filter (fun _ => true) l = l.
Proof. induction l as [|x l IH]; simpl; congruence. Qed.

(** [deleteEvent] either fails before writing or performs the cascade. *)
Lemma deleteEvent_cases id s :
  (delete_blocked id s = true /\ deleteEvent id s = (Err FkViolation, s)) \/
  (delete_blocked id s = false /\
   deleteEvent id s =
   (Ok (find (fun e => Z.eqb e.(event_id) id) s.(events)),
    let gone := filter (fun r => Z.eqb r.(eventId) id) s.(registrations) in
    let is_gone rid := existsb (fun r => Z.eqb r.(registration_id) rid) gone in
    mkDb s.(users)
         (filter (fun e => negb (Z.eqb e.(event_id) id)) s.(events))
         (filter (fun x => negb (Z.eqb x.(speaker_eventId) id)) s.(eventSpeakers))
         (filter (fun x => negb (Z.eqb x.(schedule_eventId) id)) s.(eventSchedules))
         (filter (fun r => negb (Z.eqb r.(eventId) id)) s.(registrations))
         (filter (fun c => negb (is_gone c.(registrationId))) s.(certificates))
         s.(activityLogs) s.(certificates_seq) s.(activityLogs_seq))).
Proof.
  unfold deleteEvent, bind, get_db, put_db, ret, throw.
  destruct (delete_blocked id s); [left|right]; split; reflexivity.
Qed.

Lemma deleteEvent_certificates id s :
  exists keep : certificate -> bool,
    (snd (deleteEvent id s)).(certificates) = filter keep s.(certificates).
Proof.
  destruct (deleteEvent_cases id s) as [[_ ->]|[_ ->]].
  - exists (fun _ => true); simpl; symmetry; apply filter_all.
  - eexists; reflexivity.
Qed.

Lemma deleteEvent_seq id s :
  (snd (deleteEvent id s)).(certificates_seq) = s.(certificates_seq).
Proof. destruct (deleteEvent_cases id s) as [[_ ->]|[_ ->]]; reflexivity. Qed.

(** *** Revocation-field consistency *)

Lemma ledger_consistent_certs s s' :
  s.(certificates) = s'.(certificates) -> ledger_consistent s ->
  ledger_consistent s'.
Proof. unfold ledger_consistent; intros ->; auto. Qed.

Lemma reissue_fields_consistent qr t c :
  revocation_consistent (reissue_fields qr t c).
Proof. split; simpl; [discriminate|auto]. Qed.

Lemma revoke_fields_consistent by_ r t c :
  revocation_consistent (revoke_fields by_ r t c).
Proof. split; simpl; [repeat split; discriminate|discriminate]. Qed.

Lemma consistent_updateCertificate id f :
  (forall c, revocation_consistent (f c)) ->
  inv_M ledger_consistent (updateCertificate id f).
Proof.
  intros Hf s Hs; unfold ledger_consistent.
  rewrite updateCertificate_certificates.
  apply Forall_map, (Forall_impl _ (P := revocation_consistent)); [|exact Hs].
  intros c Hc; destruct (Z.eqb _ _); auto.
Qed.

Lemma consistent_insertCertificate rid n qr t :
  inv_M ledger_consistent (insertCertificate rid n qr t).
Proof.
  intros s Hs; unfold ledger_consistent.
  destruct (insertCertificate_certificates rid n qr t s) as [->| ->]; auto.
  apply Forall_app; split; [exact Hs|].
  constructor; [|constructor]; split; simpl; [discriminate|auto].
Qed.

Lemma consistent_generateCertificate rid qr n t :
  inv_M ledger_consistent (generateCertificate rid qr n t).
Proof.
  unfold generateCertificate.
  apply inv_bind; [apply inv_findCertificateByRegistration|intros e].
  destruct e as [e|]; simpl.
  - destruct (isRevoked e); [|apply inv_ret].
    apply consistent_updateCertificate, reissue_fields_consistent.
  - apply inv_bind; [apply consistent_insertCertificate|intros; apply inv_ret].
Qed.

Lemma consistent_revokeCertificate id by_ r t :
  inv_M ledger_consistent (revokeCertificate id by_ r t).
Proof.
  apply inv_revokeCertificate, consistent_updateCertificate, revoke_fields_consistent.
Qed.

Lemma consistent_deleteEvent id : inv_M ledger_consistent (deleteEvent id).
Proof.
  intros s Hs; unfold ledger_consistent.
  destruct (deleteEvent_certificates id s) as [keep ->].
  apply Forall_forall; intros c Hc; apply filter_In in Hc.
  exact (proj1 (Forall_forall _ _) Hs c (proj1 Hc)).
Qed.

(** *** One row per registration *)

Lemma one_row_certs s s' :
  s.(certificates) = s'.(certificates) -> one_row_per_registration s ->
  one_row_per_registration s'.
Proof. unfold one_row_per_registration; intros ->; auto. Qed.

Lemma map_registrationId_update id f l :
  (forall c, (f c).(registrationId) = c.(registrationId)) ->
  map registrationId
      (map (fun c => if Z.eqb c.(certificate_id) id then f c else c) l) =
  map registrationId l.
Proof.
  intros Hf; induction l as [|c l IH]; simpl; [reflexivity|].
  rewrite IH; destruct (Z.eqb _ _); rewrite ?Hf; reflexivity.
Qed.

Lemma one_row_updateCertificate id f :
  (forall c, (f c).(registrationId) = c.(registrationId)) ->
  inv_M one_row_per_registration (updateCertificate id f).
Proof.
  intros Hf s Hs; unfold one_row_per_registration.
  rewrite updateCertificate_certificates, map_registrationId_update; auto.
Qed.

Lemma one_row_generateCertificate rid qr n t :
  inv_M one_row_per_registration (generateCertificate rid qr n t).
Proof.
  intros s Hs; unfold generateCertificate, generateCertificate_write,
    findCertificateByRegistration, bind, get_db, ret; simpl.
  destruct (find _ _) as [e|] eqn:Hfind; simpl.
  - destruct (isRevoked e); [|exact Hs].
    destruct (updateCertificate _ _ s) as [r s'] eqn:Hu.
    assert (H := one_row_updateCertificate (certificate_id e) (reissue_fields qr t)
                   (fun _ => eq_refl) s Hs).
    rewrite Hu in H; destruct r; exact H.
  - assert (Hnot : ~ In rid (map registrationId s.(certificates))).
    { intros Hin; apply in_map_iff in Hin as [c [Hc Hin]].
      pose proof (find_none _ _ Hfind c Hin) as H; simpl in H.
      rewrite Hc, Z.eqb_refl in H; discriminate. }
    pose proof (insertCertificate_certificates rid n qr t s) as Hc.
    destruct (insertCertificate rid n qr t s) as [[c|e] s'] eqn:Hi; simpl in *;
      unfold one_row_per_registration; destruct Hc as [->| ->]; try exact Hs;
      rewrite map_app; simpl;
      (apply NoDup_app; [exact Hs|constructor; [intros []|constructor]|]);
      intros a Ha [<-|[]]; contradiction.
Qed.

Lemma one_row_revokeCertificate id by_ r t :
  inv_M one_row_per_registration (revokeCertificate id by_ r t).
Proof. apply inv_revokeCertificate, one_row_updateCertificate; reflexivity. Qed.

Lemma NoDup_map_filter {A B} (g : A -> B) (keep : A -> bool) l :
  NoDup (map g l) -> NoDup (map g (filter keep l)).
Proof.
  induction l as [|a l IH]; simpl; intros H; [constructor|].
  inversion H as [|? ? Hnot Hl]; subst.
  destruct (keep a); simpl; [constructor|]; auto.
  intros Hin; apply Hnot; apply in_map_iff in Hin as [x [<- Hx]].
  apply in_map, (proj1 (filter_In _ _ _) Hx).
Qed.

Lemma one_row_deleteEvent id : inv_M one_row_per_registration (deleteEvent id).
Proof.
  intros s Hs; unfold one_row_per_registration.
  destruct (deleteEvent_certificates id s) as [keep ->].
  apply NoDup_map_filter; exact Hs.
Qed.

(** *** Interleaved issuance *)

Lemma run_schedule_steps schedule c :
  conc_steps c (run_schedule schedule c).
Proof.
  revert c; induction schedule as [|i rest IH]; intros [s ts];
    cbn -[firstn skipn thread_step].
  - apply conc_refl.
  - destruct (nth_error ts i) as [t|] eqn:Hn; [|apply IH].
    destruct (nth_error_split ts i Hn) as [pre [post [Hts Hlen]]].
    eapply conc_trans; [|apply IH].
    assert (Hf : firstn i ts = pre) by (subst; rewrite firstn_app, firstn_all,
      Nat.sub_diag; simpl; rewrite app_nil_r; reflexivity).
    assert (Hs : skipn (S i) ts = post)
      by (subst; clear; induction pre; simpl in *; auto).
    rewrite Hf, Hs; subst ts; apply conc_step_intro.
Qed.

(** ** The claims *)

(** C1 (as amended): every state reached by requests served one after the
    other, starting from an empty certificates table, holds at most one
    certificate row per registration id. *)
Theorem one_row_per_registration_sequential enc s :
  reachable enc s -> one_row_per_registration s.
Proof.
  apply reachable_inv.
  - exact one_row_certs.
  - intros s0 H; unfold one_row_per_registration; rewrite H; constructor.
  - exact one_row_generateCertificate.
  - exact one_row_revokeCertificate.
  - exact one_row_deleteEvent.
Qed.

Lemma one_row_per_registration_sequential_witness :
  reachable qr_render db1 /\ one_row_per_registration db1.
Proof.
  assert (R : reachable qr_render db1)
    by (apply reach_op, reach_init; reflexivity).
  split; [exact R|].
  apply (one_row_per_registration_sequential qr_render db1); exact R.
Defined.

(** C1 (counterexample): deleting event 3 deletes the certificate row of its
    registration 42 (foreign-key cascade), and two overlapping issuance calls
    for registration 42 both see no row and both insert one. *)
Lemma certificate_row_deleted_and_duplicated :
  (reachable qr_render db1 /\ length db1.(certificates) = 1%nat /\
   (exec qr_render (OpDeleteEvent 3) db1).(certificates) = []) /\
  (exists c,
     conc_steps (db0, [IssueStart 42 "qr-a" "CERT-1700000000000-42" 1700000000000;
                       IssueStart 42 "qr-b" "CERT-1700000000001-42" 1700000000001]) c /\
     rows_of_registration 42 (fst c) = 2%nat).
Proof.
  split.
  - split; [apply reach_op, reach_init; reflexivity|split; vm_compute; reflexivity].
  - eexists; split; [apply (run_schedule_steps [0; 1; 0; 1]%nat)|].
    vm_compute; reflexivity.
Qed.

(** C8: in every reachable state each certificate row has [isRevoked = true]
    with revokedReason, revokedDate and revokedById all set, or
    [isRevoked = false] with all three null. *)
Theorem revocation_fields_consistent enc s :
  reachable enc s -> ledger_consistent s.
Proof.
  apply reachable_inv.
  - exact ledger_consistent_certs.
  - intros s0 H; unfold ledger_consistent; rewrite H; constructor.
  - exact consistent_generateCertificate.
  - exact consistent_revokeCertificate.
  - exact consistent_deleteEvent.
Qed.

Lemma revocation_fields_consistent_witness :
  reachable qr_render db2 /\ ledger_consistent db2.
Proof.
  assert (R : reachable qr_render db2)
    by (apply reach_op, reach_op, reach_init; reflexivity).
  split; [exact R|].
  apply (revocation_fields_consistent qr_render db2); exact R.
Defined.

(** *** Lookups after an update by primary key *)

Lemma find_updated_row f id l e :
  NoDup (map certificate_id l) -> In e l -> certificate_id e = id ->
  (forall c, certificate_id (f c) = certificate_id c) ->
  find (fun c => Z.eqb c.(certificate_id) id)
       (map (fun c => if Z.eqb c.(certificate_id) id then f c else c) l) =
  Some (f e).
Proof.
  intros Hnd Hin Hid Hf; induction l as [|a l IH]; [destruct Hin|].
  inversion Hnd as [|? ? Hnot Hnd']; subst.
  simpl; destruct (Z.eqb (certificate_id a) (certificate_id e)) eqn:Ha.
  - apply Z.eqb_eq in Ha.
    destruct Hin as [->|Hin]; [simpl; rewrite Hf, Z.eqb_refl; reflexivity|].
    exfalso; apply Hnot; rewrite Ha; apply in_map; exact Hin.
  - simpl; rewrite Ha.
    destruct Hin as [->|Hin]; [rewrite Z.eqb_refl in Ha; discriminate|].
    apply IH; assumption.
Qed.

Lemma generateCertificate_active s rid e qr n t :
  find (fun c => Z.eqb c.(registrationId) rid) s.(certificates) = Some e ->
  e.(isRevoked) = false ->
  generateCertificate rid qr n t s = (Ok (Some e), s).
Proof.
  intros Hf Hr; unfold generateCertificate, generateCertificate_write,
    findCertificateByRegistration, bind, get_db, ret; simpl.
  rewrite Hf, Hr; reflexivity.
Qed.

(** C2: when registration [rid] already has an active certificate [e],
    [storage.generateCertificate] returns [e] and leaves the database as it
    was, whatever number and QR code it is given.  The issuance route never
    changes the certificates table for [rid], and it answers 201 with [e]
    whenever the QR code of its fresh number renders and the acting user
    exists (the activity-log insert needs it). *)
Theorem issuance_idempotent_on_active s rid e :
  find (fun c => Z.eqb c.(registrationId) rid) s.(certificates) = Some e ->
  e.(isRevoked) = false ->
  (forall qr n t, generateCertificate rid qr n t s = (Ok (Some e), s)) /\
  (forall enc p h a now t q,
     enc (verification_url p h (route_certificate_number now rid)) = Some q ->
     existsb (fun u => Z.eqb u.(user_id) a) s.(users) = true ->
     fst (postRegistrationCertificate enc p h a rid now t s) =
       Ok (201, json_of_certificate e)) /\
  (forall enc p h a now t,
     (snd (postRegistrationCertificate enc p h a rid now t s)).(certificates) =
       s.(certificates)).
Proof.
  intros Hf Hr.
  assert (G := fun qr n t => generateCertificate_active s rid e qr n t Hf Hr).
  split; [exact G|split].
  - intros enc p h a now t q Hq Hu;
      unfold postRegistrationCertificate, generateCertificate_qr, try_catch, bind.
    rewrite Hq; unfold ret at 1; rewrite G.
    unfold logActivity, bind, get_db, put_db, ret; simpl.
    rewrite Hu; reflexivity.
  - intros enc p h a now t;
      unfold postRegistrationCertificate, generateCertificate_qr, try_catch, bind.
    destruct (enc _); [|reflexivity].
    unfold ret at 1; rewrite G.
    unfold logActivity, bind, get_db, put_db, ret, throw; simpl.
    destruct (existsb _ _); reflexivity.
Qed.

Lemma issuance_idempotent_on_active_witness :
  let e := mkCertificate 1 42 "CERT-1700000000000-42"
    "data:image/png;base64,https://host/certificates/verify/CERT-1700000000000-42"
    1700000000000 false None None None 1700000000000 1700000000000 in
  find (fun c => Z.eqb c.(registrationId) 42) db1.(certificates) = Some e /\
  e.(isRevoked) = false /\
  generateCertificate 42 "qr-x" "CERT-1700000009999-42" 1700000009999 db1 =
    (Ok (Some e), db1) /\
  fst (postRegistrationCertificate qr_render "https" "host" 7 42 1700000005000
         1700000005000 db1) = Ok (201, json_of_certificate e).
Proof.
  intros e.
  assert (Hf : find (fun c => Z.eqb c.(registrationId) 42) db1.(certificates) =
                 Some e) by (vm_compute; reflexivity).
  split; [exact Hf|split; [reflexivity|split]].
  - apply (proj1 (issuance_idempotent_on_active db1 42 e Hf eq_refl)).
  - apply (proj1 (proj2 (issuance_idempotent_on_active db1 42 e Hf eq_refl))
      qr_render "https" "host" 7 1700000005000 1700000005000
      (qr_stub (verification_url "https" "host"
                  (route_certificate_number 1700000005000 42))));
      vm_compute; reflexivity.
Defined.

(** C5: reissuing the revoked certificate [e] of registration [rid] rewrites
    only the row of [e] (the primary key [id] is unique) and, in it, only
    isRevoked, the three revocation columns, issuedDate, qrCode and
    updatedAt; id, registrationId, certificateNumber and createdAt are kept. *)
Theorem reissue_after_revoke_frame s rid e qr n t :
  find (fun c => Z.eqb c.(registrationId) rid) s.(certificates) = Some e ->
  e.(isRevoked) = true ->
  NoDup (map certificate_id s.(certificates)) ->
  generateCertificate rid qr n t s =
    (Ok (Some (reissue_fields qr t e)),
     set_certificates
       (map (fun c => if Z.eqb c.(certificate_id) e.(certificate_id)
                      then reissue_fields qr t c else c) s.(certificates)) s) /\
  (forall c, let r := reissue_fields qr t c in
     r.(isRevoked) = false /\ r.(revokedReason) = None /\
     r.(revokedDate) = None /\ r.(revokedById) = None /\
     r.(issuedDate) = t /\ r.(qrCode) = qr /\ r.(updatedAt) = t /\
     r.(certificate_id) = c.(certificate_id) /\
     r.(registrationId) = c.(registrationId) /\
     r.(certificateNumber) = c.(certificateNumber) /\
     r.(createdAt) = c.(createdAt)).
Proof.
  intros Hf Hr Hnd; split; [|intros c; repeat split].
  unfold generateCertificate, generateCertificate_write,
    findCertificateByRegistration, bind, get_db, ret; simpl.
  rewrite Hf, Hr; unfold updateCertificate, bind, get_db, put_db, ret; simpl.
  rewrite (find_updated_row (reissue_fields qr t) _ _ e Hnd); auto.
  apply (find_some _ _ Hf).
Qed.

Lemma reissue_after_revoke_frame_witness :
  let e := mkCertificate 1 42 "CERT-1700000000000-42"
    "data:image/png;base64,https://host/certificates/verify/CERT-1700000000000-42"
    1700000000000 true (Some "duplicate") (Some 1700000001000) (Some 7)
    1700000000000 1700000001000 in
  find (fun c => Z.eqb c.(registrationId) 42) db2.(certificates) = Some e /\
  e.(isRevoked) = true /\ NoDup (map certificate_id db2.(certificates)) /\
  fst (generateCertificate 42 "qr-x" "CERT-1700000009999-42" 1700000009999 db2) =
    Ok (Some (reissue_fields "qr-x" 1700000009999 e)).
Proof.
  cbv zeta.
  assert (Hf : find (fun c => Z.eqb c.(registrationId) 42) db2.(certificates) =
    Some (mkCertificate 1 42 "CERT-1700000000000-42"
    "data:image/png;base64,https://host/certificates/verify/CERT-1700000000000-42"
    1700000000000 true (Some "duplicate") (Some 1700000001000) (Some 7)
    1700000000000 1700000001000)) by (vm_compute; reflexivity).
  assert (Hnd : NoDup (map certificate_id db2.(certificates)))
    by (vm_compute; repeat constructor; simpl; tauto).
  split; [exact Hf|split; [reflexivity|split; [exact Hnd|]]].
  rewrite (proj1 (reissue_after_revoke_frame db2 42 _ "qr-x"
             "CERT-1700000009999-42" 1700000009999 Hf eq_refl Hnd)).
  reflexivity.
Defined.

(** C3 (counterexample): the number the issuance route gave to registration
    42 is malformed for [validateCertificateNumber], yet the verification
    route looks it up and answers 200 with [valid: true]. *)
Lemma malformed_number_is_looked_up :
  validateCertificateNumber "CERT-1700000000000-42" = false /\
  match fst (getVerifyCertificate "CERT-1700000000000-42" db1) with
  | Ok (st, body) => st = 200 /\ json_field "valid" body = Some (JBool true)
  | Err _ => False
  end.
Proof. split; vm_compute; [reflexivity|split; reflexivity]. Qed.

(** C3 (as amended): the verification route applies no format check and
    looks every input up by number.  An input holding a NUL character is
    refused by Postgres when the query is bound, and the route answers 500;
    any other input gets 404 [{message: "Certificate not found",
    valid: false}], with the database left as it was, exactly when no row
    carries that number. *)
Theorem verify_unknown_number_not_found s number :
  (has_nul number = false ->
   (getVerifyCertificate number s =
      (Ok (404, JObj [("message", JStr "Certificate not found");
                      ("valid", JBool false)]), s) <->
    find (fun c => String.eqb c.(certificateNumber) number) s.(certificates)
      = None)) /\
  (has_nul number = true ->
   getVerifyCertificate number s =
     (Ok (500, JObj [("message", JStr "Failed to verify certificate")]), s)).
Proof.
  split; intros Hn.
  - unfold getVerifyCertificate, try_catch, getCertificateByNumber, bind, get_db.
    rewrite Hn.
    destruct (find _ s.(certificates)) as [c|] eqn:Hf; [|split; reflexivity].
    split; [|discriminate]; intros H; exfalso; revert H.
    unfold logActivity, ret, throw, bind, get_db, put_db; cbn -[existsb find].
    repeat (cbn [view_registration view_event view_user];
            match goal with
            | |- context [if ?b then _ else _] => destruct b
            | |- context [match find ?f ?l with _ => _ end] => destruct (find f l)
            end); intros H; inversion H.
  - unfold getVerifyCertificate, try_catch, getCertificateByNumber, throw.
    rewrite Hn; reflexivity.
Qed.

Lemma verify_unknown_number_not_found_witness :
  getVerifyCertificate "not-a-real-number" db1 =
    (Ok (404, JObj [("message", JStr "Certificate not found");
                    ("valid", JBool false)]), db1).
Proof.
  apply (proj1 (verify_unknown_number_not_found db1 "not-a-real-number")
           eq_refl); vm_compute; reflexivity.
Defined.

(** C4 (counterexample): certificate 1 of [db2] is already revoked; a second
    revocation answers 200 and replaces the stored reason. *)
Lemma second_revoke_succeeds :
  option_map isRevoked
    (find (fun c => Z.eqb c.(certificate_id) 1) db2.(certificates)) = Some true /\
  let r := postRevokeCertificate 7 1 (Some "typo") 1700000002000 db2 in
  match fst r with Ok (st, _) => st = 200 | Err _ => False end /\
  option_map revokedReason
    (find (fun c => Z.eqb c.(certificate_id) 1) (snd r).(certificates)) =
    Some (Some "typo").
Proof. vm_compute; split; [reflexivity|split; reflexivity]. Qed.

(** C4 (as amended): revocation has no already-revoked check: revoking the
    revoked certificate [c] again, with a non-empty reason free of NUL
    characters, by an existing user, answers 200 and overwrites
    revokedReason, revokedDate and revokedById (isRevoked stays true). *)
Theorem revoke_overwrites_revoked s id c actor r t :
  NoDup (map certificate_id s.(certificates)) ->
  In c s.(certificates) -> c.(certificate_id) = id -> c.(isRevoked) = true ->
  r <> EmptyString -> has_nul r = false ->
  existsb (fun u => Z.eqb u.(user_id) actor) s.(users) = true ->
  fst (postRevokeCertificate actor id (Some r) t s) =
    Ok (200, json_of_certificate (revoke_fields actor r t c)) /\
  find (fun c => Z.eqb c.(certificate_id) id)
       (snd (postRevokeCertificate actor id (Some r) t s)).(certificates) =
    Some (revoke_fields actor r t c) /\
  (revoke_fields actor r t c).(isRevoked) = true /\
  (revoke_fields actor r t c).(revokedReason) = Some r /\
  (revoke_fields actor r t c).(revokedDate) = Some t /\
  (revoke_fields actor r t c).(revokedById) = Some actor.
Proof.
  intros Hnd Hin Hid Hrev Hr Hnul Hu.
  destruct r as [|ch r']; [contradiction|].
  assert (Hfind := find_updated_row (revoke_fields actor (String ch r') t)
                     id _ c Hnd Hin Hid (fun _ => eq_refl)).
  assert (Hfk : revoke_fk_fails id actor s = false)
    by (unfold revoke_fk_fails; rewrite Hu; apply andb_false_r).
  unfold postRevokeCertificate, try_catch, revokeCertificate.
  rewrite Hnul; unfold updateCertificate, bind, get_db, put_db, ret.
  cbv beta iota; rewrite Hfk; simpl.
  rewrite Hfind; unfold logActivity, bind, get_db, put_db, ret; simpl.
  rewrite Hu; simpl.
  repeat split; try reflexivity; exact Hfind.
Qed.

Lemma revoke_overwrites_revoked_witness :
  let c := mkCertificate 1 42 "CERT-1700000000000-42"
    "data:image/png;base64,https://host/certificates/verify/CERT-1700000000000-42"
    1700000000000 true (Some "duplicate") (Some 1700000001000) (Some 7)
    1700000000000 1700000001000 in
  In c db2.(certificates) /\
  fst (postRevokeCertificate 7 1 (Some "typo") 1700000002000 db2) =
    Ok (200, json_of_certificate (revoke_fields 7 "typo" 1700000002000 c)).
Proof.
  cbv zeta.
  assert (Hin : In (mkCertificate 1 42 "CERT-1700000000000-42"
    "data:image/png;base64,https://host/certificates/verify/CERT-1700000000000-42"
    1700000000000 true (Some "duplicate") (Some 1700000001000) (Some 7)
    1700000000000 1700000001000) db2.(certificates))
    by (vm_compute; left; reflexivity).
  split; [exact Hin|].
  apply (revoke_overwrites_revoked db2 1 _ 7 "typo" 1700000002000);
    [vm_compute; repeat constructor; simpl; tauto|exact Hin|reflexivity|
     reflexivity|discriminate|reflexivity|vm_compute; reflexivity].
Defined.

(** *** Issuance for a registration without a certificate *)

Lemma issue_fresh_registration enc p h a rid now t q s :
  enc (verification_url p h (route_certificate_number now rid)) = Some q ->
  (String.length (route_certificate_number now rid) <= 50)%nat ->
  existsb (fun r => Z.eqb r.(registration_id) rid) s.(registrations) = true ->
  find (fun c => Z.eqb c.(registrationId) rid) s.(certificates) = None ->
  existsb (fun c => String.eqb c.(certificateNumber)
                      (route_certificate_number now rid)) s.(certificates) = false ->
  let row := mkCertificate s.(certificates_seq) rid
               (route_certificate_number now rid) q t false None None None t t in
  (snd (postRegistrationCertificate enc p h a rid now t s)).(certificates) =
    (s.(certificates) ++ [row])%list /\
  (existsb (fun u => Z.eqb u.(user_id) a) s.(users) = true ->
   fst (postRegistrationCertificate enc p h a rid now t s) =
     Ok (201, json_of_certificate row)).
Proof.
  intros Hq Hlen Hreg Hf Hnum.
  assert (Hlt : Nat.ltb 50 (String.length (route_certificate_number now rid))
                = false) by (apply Nat.ltb_ge; exact Hlen).
  unfold postRegistrationCertificate, try_catch, generateCertificate_qr.
  rewrite Hq.
  unfold generateCertificate, generateCertificate_write,
    findCertificateByRegistration, insertCertificate,
    logActivity, bind, get_db, put_db, ret, throw; simpl.
  rewrite Hf; simpl; simpl in Hlt; rewrite Hlt, Hnum; simpl; rewrite Hreg; simpl.
  destruct (existsb _ s.(users)); simpl; split; try reflexivity; discriminate.
Qed.

(** *** Certificate number formats *)

Arguments is_digit : simpl never.
Arguments is_upper : simpl never.

Lemma string_of_uint_digits u :
  forallb is_digit (list_ascii_of_string (string_of_uint u)) = true.
Proof. induction u; simpl; rewrite ?IHu; reflexivity. Qed.

Lemma string_of_uint_long p :
  10 <= Z.pos p -> (2 <= String.length (string_of_uint (Pos.to_uint p)))%nat.
Proof.
  intros Hy.
  assert (Hof : N.of_uint (Pos.to_uint p) = N.pos p)
    by exact (DecimalN.Unsigned.of_to (N.pos p)).
  destruct (Pos.to_uint p) as [|u|u|u|u|u|u|u|u|u|u];
    [simpl in Hof; discriminate|..];
    destruct u; simpl in *; try lia;
    inversion Hof; subst; lia.
Qed.

Lemma slice_last2_shape s :
  (2 <= String.length s)%nat ->
  exists a b, slice_last2 s = String a (String b EmptyString) /\
    In a (list_ascii_of_string s) /\ In b (list_ascii_of_string s).
Proof.
  unfold slice_last2; induction s as [|c s IH]; intros Hl; [simpl in Hl; lia|].
  destruct (Nat.le_gt_cases 2 (String.length s)) as [H2|H2].
  - replace (String.length (String c s) - 2)%nat
      with (S (String.length s - 2)) by (simpl; lia).
    destruct (IH H2) as [a [b [Hs [Ha Hb]]]].
    exists a, b; split; [exact Hs|split; right; assumption].
  - simpl in Hl; destruct s as [|d [|e s]]; simpl in *; try lia.
    exists c, d; simpl; auto.
Qed.

Lemma year_digits y :
  10 <= y -> exists a b,
    slice_last2 (string_of_Z y) = String a (String b EmptyString) /\
    is_digit a = true /\ is_digit b = true.
Proof.
  intros Hy; destruct y as [|p|p]; try lia.
  unfold string_of_Z; simpl.
  destruct (slice_last2_shape _ (string_of_uint_long p Hy)) as [a [b [H [Ha Hb]]]].
  pose proof (proj1 (forallb_forall _ _) (string_of_uint_digits (Pos.to_uint p))).
  exists a, b; auto.
Qed.

Lemma month_digits m :
  0 <= m <= 11 -> exists a b,
    padStart2 (string_of_Z (m + 1)) = String a (String b EmptyString) /\
    is_digit a = true /\ is_digit b = true.
Proof.
  intros Hm.
  assert (m = 0 \/ m = 1 \/ m = 2 \/ m = 3 \/ m = 4 \/ m = 5 \/ m = 6 \/
          m = 7 \/ m = 8 \/ m = 9 \/ m = 10 \/ m = 11) as Hc by lia.
  repeat destruct Hc as [->|Hc]; subst;
    do 2 eexists; (split; [reflexivity|split; vm_compute; reflexivity]).
Qed.

Definition nanoid_char (i : nat) : ascii :=
  match get (Nat.modulo i 36) alphabet with Some c => c | None => "0"%char end.

Lemma nanoid_char_alnum i :
  is_upper (nanoid_char i) || is_digit (nanoid_char i) = true.
Proof.
  unfold nanoid_char.
  assert (Hlt : (Nat.modulo i 36 < 36)%nat) by (apply Nat.mod_upper_bound; lia).
  remember (Nat.modulo i 36) as k eqn:Hk; clear Hk.
  do 36 (destruct k as [|k]; [vm_compute; reflexivity|]); lia.
Qed.

Lemma nanoid6 rnd :
  nanoid rnd 6 = string_of_list_ascii
    [nanoid_char (rnd 0%nat); nanoid_char (rnd 1%nat); nanoid_char (rnd 2%nat);
     nanoid_char (rnd 3%nat); nanoid_char (rnd 4%nat); nanoid_char (rnd 5%nat)].
Proof. reflexivity. Qed.

Lemma generated_number_valid y m rnd :
  10 <= y -> 0 <= m <= 11 ->
  validateCertificateNumber (generateCertificateNumber y m rnd) = true.
Proof.
  intros Hy Hm.
  destruct (year_digits y Hy) as [a [b [Hyr [Ha Hb]]]].
  destruct (month_digits m Hm) as [c [d [Hmo [Hc Hd]]]].
  unfold generateCertificateNumber; rewrite Hyr, Hmo, nanoid6.
  unfold validateCertificateNumber; simpl.
  rewrite Ha, Hb, Hc, Hd, !nanoid_char_alnum; reflexivity.
Qed.

Lemma route_number_invalid now rid :
  validateCertificateNumber (route_certificate_number now rid) = false.
Proof. reflexivity. Qed.

(** C6 (code defect at a concrete input): certificate 1 of registration 42
    was issued as [CERT-1700000000000-42] and revoked ([db2]); reissuing it at
    [Date.now() = 1700000003000] keeps that number in the row but stores the
    QR code of the URL of the fresh number [CERT-1700000003000-42], which no
    row carries: scanning it gives 404. *)
Theorem reissue_qr_encodes_unstored_number :
  let s3 := exec qr_render (OpIssue "https" "host" 7 42 1700000003000 1700000003000)
    db2 in
  let row := find (fun c => Z.eqb c.(registrationId) 42) s3.(certificates) in
  option_map certificateNumber row = Some "CERT-1700000000000-42" /\
  option_map qrCode row =
    Some (qr_stub (verification_url "https" "host" "CERT-1700000003000-42")) /\
  option_map qrCode row <>
    Some (qr_stub (verification_url "https" "host" "CERT-1700000000000-42")) /\
  fst (getVerifyCertificate "CERT-1700000003000-42" s3) =
    Ok (404, JObj [("message", JStr "Certificate not found");
                   ("valid", JBool false)]).
Proof.
  vm_compute; split; [reflexivity|split; [reflexivity|split; [|reflexivity]]].
  discriminate.
Qed.

(** C7 (counterexample): the issuance route stored the number
    [CERT-1700000000000-42], which [validateCertificateNumber] rejects. *)
Lemma issued_number_fails_validation :
  option_map certificateNumber
    (find (fun c => Z.eqb c.(registrationId) 42) db1.(certificates)) =
    Some "CERT-1700000000000-42" /\
  validateCertificateNumber "CERT-1700000000000-42" = false.
Proof. vm_compute; split; reflexivity. Qed.

(** C7 (as amended): [generateCertificateNumber] always yields a number that
    [validateCertificateNumber] accepts (for years from 10 on), but the
    issuance route does not use it: issuing for a registration without a
    certificate, when the QR code renders and the number fits the 50
    characters of the column, stores [CERT-{Date.now()}-{registrationId}],
    which [validateCertificateNumber] rejects. *)
Theorem certificate_number_formats y m rnd enc p h a rid now t q s :
  10 <= y -> 0 <= m <= 11 ->
  enc (verification_url p h (route_certificate_number now rid)) = Some q ->
  (String.length (route_certificate_number now rid) <= 50)%nat ->
  existsb (fun r => Z.eqb r.(registration_id) rid) s.(registrations) = true ->
  find (fun c => Z.eqb c.(registrationId) rid) s.(certificates) = None ->
  existsb (fun c => String.eqb c.(certificateNumber)
                      (route_certificate_number now rid)) s.(certificates) = false ->
  validateCertificateNumber (generateCertificateNumber y m rnd) = true /\
  exists row,
    (snd (postRegistrationCertificate enc p h a rid now t s)).(certificates) =
      (s.(certificates) ++ [row])%list /\
    row.(certificateNumber) = route_certificate_number now rid /\
    validateCertificateNumber row.(certificateNumber) = false.
Proof.
  intros Hy Hm Hq Hlen Hreg Hf Hnum;
    split; [apply generated_number_valid; assumption|].
  destruct (issue_fresh_registration enc p h a rid now t q s Hq Hlen Hreg Hf Hnum)
    as [Hc _].
  eexists; split; [exact Hc|split; [reflexivity|apply route_number_invalid]].
Qed.

Lemma certificate_number_formats_witness :
  validateCertificateNumber (generateCertificateNumber 2026 9 (fun _ => 0%nat)) = true /\
  exists row,
    (snd (postRegistrationCertificate qr_render "https" "host" 7 42 1700000000000
            1700000000000 db0)).(certificates) = (db0.(certificates) ++ [row])%list /\
    row.(certificateNumber) = route_certificate_number 1700000000000 42 /\
    validateCertificateNumber row.(certificateNumber) = false.
Proof.
  apply (certificate_number_formats 2026 9 (fun _ => 0%nat) qr_render "https" "host"
           7 42 1700000000000 1700000000000
           (qr_stub (verification_url "https" "host"
                       (route_certificate_number 1700000000000 42))) db0);
    try lia; vm_compute; first [reflexivity|lia].
Defined.





Lemma find_user_forget_email us us' x :
  map forget_email us = map forget_email us' ->
  option_map forget_email (find (fun u => Z.eqb u.(user_id) x) us) =
  option_map forget_email (find (fun u => Z.eqb u.(user_id) x) us').
Proof.
  revert us'; induction us as [|u us IH]; intros [|u' us'] H; cbn [map] in H;
    try discriminate; [reflexivity|].
  assert (Hu : forget_email u = forget_email u')
    by (apply (f_equal (@hd_error user)) in H; cbn [hd_error] in H; congruence).
  assert (Hl : map forget_email us = map forget_email us')
    by (apply (f_equal (@tl user)) in H; exact H).
  assert (Hid : user_id u = user_id u') by (apply (f_equal user_id) in Hu; exact Hu).
  simpl.
  rewrite Hid; destruct (Z.eqb _ _); [simpl; rewrite Hu; reflexivity|].
  apply IH; exact Hl.
Qed.

Lemma existsb_user_forget_email us us' x :
  map forget_email us = map forget_email us' ->
  existsb (fun u => Z.eqb u.(user_id) x) us =
  existsb (fun u => Z.eqb u.(user_id) x) us'.
Proof.
  revert us'; induction us as [|u us IH]; intros [|u' us'] H; cbn [map] in H;
    try discriminate; [reflexivity|].
  assert (Hu : forget_email u = forget_email u')
    by (apply (f_equal (@hd_error user)) in H; cbn [hd_error] in H; congruence).
  assert (Hl : map forget_email us = map forget_email us')
    by (apply (f_equal (@tl user)) in H; exact H).
  assert (Hid : user_id u = user_id u') by (apply (f_equal user_id) in Hu; exact Hu).
  simpl.
  rewrite Hid, (IH us' Hl); reflexivity.
Qed.

(** C10: the verification route's answer does not depend on any user's
    email: two databases whose users differ only in their emails get the same
    response; and the holder summary of a response has exactly the keys
    fullName, organization and position. *)
Theorem verify_independent_of_email s us number :
  map forget_email us = map forget_email s.(users) ->
  fst (getVerifyCertificate number (with_users s us)) =
    fst (getVerifyCertificate number s) /\
  (forall st body, fst (getVerifyCertificate number s) = Ok (st, body) ->
     holder_keys body = None \/
     holder_keys body = Some ["fullName"; "organization"; "position"]).
Proof.
  intros Hus; split.
  - unfold getVerifyCertificate, try_catch, getCertificateByNumber, logActivity,
      bind, get_db, put_db, ret, throw; simpl.
    destruct (has_nul number); [reflexivity|]; simpl.
    destruct (find _ (certificates s)) as [c|]; [|reflexivity].
    destruct (find _ (registrations s)) as [r|]; simpl;
      destruct (isRevoked c); try reflexivity.
    change (users (with_users s us)) with us.
    rewrite (existsb_user_forget_email us (users s) (userId r) Hus).
    destruct (existsb _ (users s)); simpl; [|reflexivity].
    destruct (find _ (events s)); [|reflexivity].
    pose proof (find_user_forget_email us (users s) (userId r) Hus) as Hf.
    destruct (find _ us) as [u|], (find _ (users s)) as [u'|];
      simpl in Hf; try discriminate; [|reflexivity].
    unfold forget_email in Hf.
    assert (fullName u = fullName u') as -> by congruence.
    assert (organization u = organization u') as -> by congruence.
    assert (position u = position u') as -> by congruence.
    reflexivity.
  - intros st body.
    unfold getVerifyCertificate, try_catch, getCertificateByNumber, logActivity,
      bind, get_db, put_db, ret, throw; simpl.
    destruct (has_nul number);
      [intros H; injection H as <- <-; left; reflexivity|]; simpl.
    destruct (find _ (certificates s)) as [c|];
      [|intros H; injection H as <- <-; left; reflexivity].
    destruct (find _ (registrations s)) as [r|]; simpl;
      destruct (isRevoked c);
      try (intros H; injection H as <- <-; left; reflexivity).
    destruct (existsb _ (users s)); simpl;
      [|intros H; injection H as <- <-; left; reflexivity].
    destruct (find _ (events s)) as [e|];
      [destruct (find _ (users s)) as [u|]|];
      intros H; injection H as <- <-; [right|left|left]; reflexivity.
Qed.

Lemma verify_independent_of_email_witness :
  fst (getVerifyCertificate "CERT-1700000000000-42"
         (with_users db1 [mkUser 7 "alice@other.example" "Alice Martin"
                            (Some "CHU Alger") (Some "Nurse")])) =
  fst (getVerifyCertificate "CERT-1700000000000-42" db1).
Proof.
  apply (verify_independent_of_email db1); reflexivity.
Defined.

(** * Further properties of the certificate code *)

(** ** Lists *)

Lemma find_existsb_false {A} (f : A -> bool) l :
  existsb f l = false -> find f l = None.
Proof.
  induction l as [|x l IH]; simpl; [reflexivity|].
  destruct (f x); simpl; [discriminate|exact IH].
Qed.

Lemma find_some_existsb {A} (f : A -> bool) l x :
  find f l = Some x -> existsb f l = true.
Proof.
  induction l as [|y l IH]; simpl; [discriminate|].
  destruct (f y); simpl; auto.
Qed.

Lemma find_app_none {A} (f : A -> bool) l l' :
  find f l = None -> find f (l ++ l')%list = find f l'.
Proof.
  induction l as [|y l IH]; simpl; [reflexivity|].
  destruct (f y); [discriminate|exact IH].
Qed.

Lemma find_map_stable {A} (f : A -> bool) (g : A -> A) l :
  (forall x, f (g x) = f x) -> find f (map g l) = option_map g (find f l).
Proof.
  intros Hg; induction l as [|y l IH]; simpl; [reflexivity|].
  rewrite Hg; destruct (f y); [reflexivity|exact IH].
Qed.

Lemma map_proj_update {B} (proj : certificate -> B) id f l :
  (forall c, proj (f c) = proj c) ->
  map proj (map (fun c => if Z.eqb c.(certificate_id) id then f c else c) l) =
  map proj l.
Proof.
  intros Hf; induction l as [|c l IH]; simpl; [reflexivity|].
  rewrite IH; destruct (Z.eqb _ _); rewrite ?Hf; reflexivity.
Qed.

(** ** Invariants of the routes, by their writes *)

Section Frame.

Variable P : db -> Prop.
Hypothesis P_log : forall u a d t r, inv_M P (logActivity u a d t r).
Hypothesis P_generate : forall rid qr n t,
  inv_M P (generateCertificate rid qr n t).
Hypothesis P_revoke : forall id by_ r t, inv_M P (revokeCertificate id by_ r t).

Lemma frame_postRegistrationCertificate enc p h a r n t :
  inv_M P (postRegistrationCertificate enc p h a r n t).
Proof.
  unfold postRegistrationCertificate.
  apply inv_try_catch; [|intros; apply inv_ret].
  apply inv_bind; [apply inv_generateCertificate_qr|intros qr].
  apply inv_bind; [apply P_generate|intros [oc|]]; [|apply inv_throw].
  apply inv_bind; [apply P_log|intros; apply inv_ret].
Qed.

Lemma frame_getVerifyCertificate n : inv_M P (getVerifyCertificate n).
Proof.
  unfold getVerifyCertificate.
  apply inv_try_catch; [|intros; apply inv_ret].
  apply inv_bind; [intros s Hs; unfold getCertificateByNumber, bind, get_db, throw;
                   destruct (has_nul n); [exact Hs|]; simpl;
                   destruct (find _ _); [destruct (find _ _)|]; exact Hs|intros f].
  destruct f as [[c v]|]; [|apply inv_ret].
  destruct (isRevoked c); [apply inv_ret|].
  destruct v as [v|]; [|apply inv_throw].
  apply inv_bind; [apply P_log|intros ?].
  destruct (view_event v), (view_user v); first [apply inv_ret|apply inv_throw].
Qed.

Lemma frame_postRevokeCertificate a c r n :
  inv_M P (postRevokeCertificate a c r n).
Proof.
  unfold postRevokeCertificate.
  apply inv_try_catch; [|intros; apply inv_ret].
  destruct r as [[|ch r]|]; try apply inv_ret.
  apply inv_bind; [apply P_revoke|intros orc].
  destruct orc; [|apply inv_throw].
  apply inv_bind; [apply P_log|intros; apply inv_ret].
Qed.

End Frame.

(** Invariants that look at the [certificates] table and its sequence. *)
Section Seq_invariance.

Variable P : db -> Prop.
Hypothesis P_frame : forall s s', s.(certificates) = s'.(certificates) ->
  s.(certificates_seq) = s'.(certificates_seq) -> P s -> P s'.
Hypothesis P_empty : forall s, s.(certificates) = [] -> P s.
Hypothesis P_generate : forall rid qr n t,
  inv_M P (generateCertificate rid qr n t).
Hypothesis P_revoke : forall id by_ r t, inv_M P (revokeCertificate id by_ r t).
Hypothesis P_delete : forall id, inv_M P (deleteEvent id).

Lemma seq_logActivity u a d t r : inv_M P (logActivity u a d t r).
Proof.
  intros s H; unfold logActivity, bind, get_db, put_db, ret, throw; simpl.
  destruct (negb _); simpl; [exact H|].
  apply (P_frame s); [reflexivity|reflexivity|exact H].
Qed.

Lemma seq_run_op enc o : inv_M P (run_op enc o).
Proof.
  destruct o; unfold run_op; apply inv_bind; intros; try apply inv_ret.
  - apply frame_postRegistrationCertificate;
      [exact seq_logActivity|exact P_generate].
  - apply frame_getVerifyCertificate; exact seq_logActivity.
  - apply frame_postRevokeCertificate; [exact seq_logActivity|exact P_revoke].
  - apply P_delete.
Qed.

Lemma reachable_inv_seq enc s : reachable enc s -> P s.
Proof.
  induction 1 as [s H|s o _ IH|s s' _ IH Hc Hq].
  - apply P_empty; exact H.
  - unfold exec; apply seq_run_op; exact IH.
  - apply (P_frame s); [symmetry; exact Hc|symmetry; exact Hq|exact IH].
Qed.

End Seq_invariance.

(** ** Unique certificate numbers and ids *)
(** ** Unique certificate numbers and ids *)

Lemma existsb_false_In {A} (f : A -> bool) l x :
  existsb f l = false -> In x l -> f x = false.
Proof.
  intros H Hin; destruct (f x) eqn:Hx; [|reflexivity].
  assert (existsb f l = true) by (apply existsb_exists; exists x; auto).
  congruence.
Qed.

Lemma numbers_insertCertificate rid n qr t :
  inv_M unique_numbers (insertCertificate rid n qr t).
Proof.
  intros s Hs; unfold insertCertificate, bind, get_db, put_db, ret, throw; simpl.
  destruct (Nat.ltb _ _); [exact Hs|].
  destruct (existsb _ _) eqn:Hn; [exact Hs|].
  destruct (negb _); [exact Hs|].
  unfold unique_numbers; simpl; rewrite map_app; simpl.
  apply NoDup_app; [exact Hs|constructor; [intros []|constructor]|].
  intros a Ha [<-|[]]; apply in_map_iff in Ha as [c [Hc Hin]].
  pose proof (existsb_false_In _ _ c Hn Hin) as H; simpl in H.
  rewrite Hc, String.eqb_refl in H; discriminate.
Qed.

Lemma numbers_generateCertificate rid qr n t :
  inv_M unique_numbers (generateCertificate rid qr n t).
Proof.
  unfold generateCertificate.
  apply inv_bind; [apply inv_findCertificateByRegistration|intros [e|]]; simpl.
  - destruct (isRevoked e); [|apply inv_ret].
    intros s Hs; unfold unique_numbers; rewrite updateCertificate_certificates.
    rewrite map_proj_update; [exact Hs|reflexivity].
  - apply inv_bind; [apply numbers_insertCertificate|intros; apply inv_ret].
Qed.

Lemma numbers_revokeCertificate id by_ r t :
  inv_M unique_numbers (revokeCertificate id by_ r t).
Proof.
  apply inv_revokeCertificate; intros s Hs; unfold unique_numbers.
  rewrite updateCertificate_certificates, map_proj_update; [exact Hs|reflexivity].
Qed.

Lemma numbers_deleteEvent id : inv_M unique_numbers (deleteEvent id).
Proof.
  intros s Hs; unfold unique_numbers.
  destruct (deleteEvent_certificates id s) as [keep ->].
  apply NoDup_map_filter; exact Hs.
Qed.

Lemma ids_below_seq_frame s s' :
  s.(certificates) = s'.(certificates) ->
  s.(certificates_seq) = s'.(certificates_seq) -> ids_below_seq s -> ids_below_seq s'.
Proof. unfold ids_below_seq; intros <- <-; auto. Qed.

Lemma ids_updateCertificate id f :
  (forall c, (f c).(certificate_id) = c.(certificate_id)) ->
  inv_M ids_below_seq (updateCertificate id f).
Proof.
  intros Hf s Hs; unfold ids_below_seq.
  rewrite updateCertificate_certificates, map_proj_update by exact Hf.
  exact Hs.
Qed.

Lemma ids_insertCertificate rid n qr t :
  inv_M ids_below_seq (insertCertificate rid n qr t).
Proof.
  intros s [Hlt Hnd].
  assert (Hlt' : Forall (fun i => i < certificates_seq s + 1)
                        (map certificate_id s.(certificates)))
    by (apply (Forall_impl _ (P := fun i => i < certificates_seq s));
        [intros; lia|exact Hlt]).
  unfold insertCertificate, bind, get_db, put_db, ret, throw; simpl.
  destruct (Nat.ltb _ _); [split; assumption|].
  destruct (existsb _ _); [split; assumption|].
  destruct (negb _); [split; assumption|].
  unfold ids_below_seq; simpl; rewrite map_app; simpl.
  split.
  - apply Forall_app; split; [exact Hlt'|constructor; [lia|constructor]].
  - apply NoDup_app; [exact Hnd|constructor; [intros []|constructor]|].
    intros a Ha [<-|[]].
    pose proof (proj1 (Forall_forall _ _) Hlt _ Ha) as H; cbv beta in H; lia.
Qed.

Lemma ids_generateCertificate rid qr n t :
  inv_M ids_below_seq (generateCertificate rid qr n t).
Proof.
  unfold generateCertificate.
  apply inv_bind; [intros s H; exact H|intros [e|]]; simpl.
  - destruct (isRevoked e); [|apply inv_ret].
    apply ids_updateCertificate; reflexivity.
  - apply inv_bind; [apply ids_insertCertificate|intros; apply inv_ret].
Qed.

Lemma ids_deleteEvent id : inv_M ids_below_seq (deleteEvent id).
Proof.
  intros s [Hlt Hnd]; unfold ids_below_seq.
  rewrite deleteEvent_seq.
  destruct (deleteEvent_certificates id s) as [keep ->].
  split; [|apply NoDup_map_filter; exact Hnd].
  apply Forall_forall; intros i Hi; apply in_map_iff in Hi as [c [<- Hc]].
  apply filter_In in Hc as [Hc _].
  exact (proj1 (Forall_forall _ _) Hlt _ (in_map _ _ _ Hc)).
Qed.

(** In every state reached by requests served one after the other from an
    empty certificates table, no two certificate rows carry the same
    certificate number. *)
Theorem reachable_numbers_unique enc s :
  reachable enc s -> NoDup (map certificateNumber s.(certificates)).
Proof.
  apply (reachable_inv unique_numbers).
  - unfold unique_numbers; intros s0 s1 ->; auto.
  - intros s0 H; unfold unique_numbers; rewrite H; constructor.
  - exact numbers_generateCertificate.
  - exact numbers_revokeCertificate.
  - exact numbers_deleteEvent.
Qed.

Lemma reachable_numbers_unique_witness :
  reachable qr_render db2 /\ NoDup (map certificateNumber db2.(certificates)).
Proof.
  assert (R : reachable qr_render db2)
    by (apply reach_op, reach_op, reach_init; reflexivity).
  split; [exact R|apply (reachable_numbers_unique qr_render db2); exact R].
Defined.

(** In every reachable state the certificate ids are pairwise distinct and all
    below the next value of the [serial] sequence. *)
Theorem reachable_ids_below_seq enc s :
  reachable enc s ->
  NoDup (map certificate_id s.(certificates)) /\
  Forall (fun i => i < s.(certificates_seq)) (map certificate_id s.(certificates)).
Proof.
  intros R.
  assert (H : ids_below_seq s).
  { apply (reachable_inv_seq ids_below_seq) with (enc := enc); auto.
    - exact ids_below_seq_frame.
    - intros s0 H; unfold ids_below_seq; rewrite H; split; constructor.
    - exact ids_generateCertificate.
    - intros; apply inv_revokeCertificate, ids_updateCertificate; reflexivity.
    - exact ids_deleteEvent. }
  destruct H; split; assumption.
Qed.

Lemma reachable_ids_below_seq_witness :
  reachable qr_render db2 /\
  NoDup (map certificate_id db2.(certificates)) /\
  Forall (fun i => i < db2.(certificates_seq)) (map certificate_id db2.(certificates)).
Proof.
  assert (R : reachable qr_render db2)
    by (apply reach_op, reach_op, reach_init; reflexivity).
  split; [exact R|apply (reachable_ids_below_seq qr_render db2); exact R].
Defined.

(** ** Tables the certificate routes do not write *)

Lemma tables_logActivity s0 u a d t r :
  inv_M (same_tables s0) (logActivity u a d t r).
Proof.
  intros s H; unfold logActivity, bind, get_db, put_db, ret, throw; simpl.
  destruct (negb _); exact H.
Qed.

Lemma tables_updateCertificate s0 id f :
  inv_M (same_tables s0) (updateCertificate id f).
Proof. intros s H; exact H. Qed.

Lemma tables_generateCertificate s0 rid qr n t :
  inv_M (same_tables s0) (generateCertificate rid qr n t).
Proof.
  intros s Hs; unfold generateCertificate, generateCertificate_write,
    findCertificateByRegistration, bind, get_db, ret; simpl.
  destruct (find _ _) as [e|]; simpl.
  - destruct (isRevoked e); exact Hs.
  - unfold insertCertificate, bind, get_db, put_db, ret, throw; simpl.
    destruct (Nat.ltb _ _); [exact Hs|].
    destruct (existsb _ _); [exact Hs|].
    destruct (negb _); exact Hs.
Qed.

Lemma tables_revokeCertificate s0 id by_ r t :
  inv_M (same_tables s0) (revokeCertificate id by_ r t).
Proof. apply inv_revokeCertificate, tables_updateCertificate. Qed.

Lemma tables_postRegistrationCertificate enc p h a rid now t s :
  same_tables s (snd (postRegistrationCertificate enc p h a rid now t s)).
Proof.
  apply frame_postRegistrationCertificate; [apply tables_logActivity|
    apply tables_generateCertificate|split; [|split]; reflexivity].
Qed.

Lemma tables_postRevokeCertificate a id r now s :
  same_tables s (snd (postRevokeCertificate a id r now s)).
Proof.
  apply frame_postRevokeCertificate; [apply tables_logActivity|
    intros; apply tables_revokeCertificate|split; [|split]; reflexivity].
Qed.

(** The certificates table after a revocation request with a non-empty
    reason free of NUL characters by an existing user, whether the request
    then answers 200 or 500. *)
Lemma revoke_route_certificates a id reason now s :
  reason <> EmptyString -> has_nul reason = false ->
  existsb (fun u => Z.eqb u.(user_id) a) s.(users) = true ->
  (snd (postRevokeCertificate a id (Some reason) now s)).(certificates) =
  map (fun c => if Z.eqb c.(certificate_id) id
                then revoke_fields a reason now c else c) s.(certificates).
Proof.
  intros Hr Hnul Hu; destruct reason as [|ch r]; [contradiction|].
  assert (Hfk : revoke_fk_fails id a s = false)
    by (unfold revoke_fk_fails; rewrite Hu; apply andb_false_r).
  unfold postRevokeCertificate, try_catch, revokeCertificate.
  rewrite Hnul; unfold updateCertificate, bind, get_db, put_db, ret.
  cbv beta iota; rewrite Hfk.
  unfold logActivity, bind, get_db, put_db, ret, throw; simpl.
  destruct (find _ _); [destruct (existsb _ _)|]; reflexivity.
Qed.

(** The certificates table after an issuance request for a registration
    whose certificate is revoked, when the QR code renders. *)
Lemma reissue_route_certificates enc p h a rid now t q s e :
  enc (verification_url p h (route_certificate_number now rid)) = Some q ->
  find (fun c => Z.eqb c.(registrationId) rid) s.(certificates) = Some e ->
  e.(isRevoked) = true ->
  (snd (postRegistrationCertificate enc p h a rid now t s)).(certificates) =
  map (fun c => if Z.eqb c.(certificate_id) e.(certificate_id)
                then reissue_fields q t c else c) s.(certificates).
Proof.
  intros Hq Hf Hrev.
  unfold postRegistrationCertificate, try_catch, generateCertificate_qr.
  rewrite Hq.
  unfold generateCertificate,
    generateCertificate_write, findCertificateByRegistration, updateCertificate,
    logActivity, bind, get_db, put_db, ret, throw; simpl.
  rewrite Hf; simpl; rewrite Hrev; simpl; clear Hf.
  destruct (find _ _); simpl; try destruct (existsb _ _); reflexivity.
Qed.

(** ** Round trips through the verification route *)

Lemma has_nul_app a b : has_nul (a ++ b) = has_nul a || has_nul b.
Proof.
  unfold has_nul; induction a as [|c a IH]; simpl; [reflexivity|].
  rewrite IH, orb_assoc; reflexivity.
Qed.

Lemma has_nul_uint u : has_nul (string_of_uint u) = false.
Proof. unfold has_nul; induction u; simpl; auto. Qed.

Lemma has_nul_Z z : has_nul (string_of_Z z) = false.
Proof.
  unfold string_of_Z; destruct (Z.to_int z) as [u|u];
    [|rewrite has_nul_app]; rewrite has_nul_uint; reflexivity.
Qed.

(** The numbers built by the issuance route hold digits and dashes only. *)
Lemma has_nul_route_number now rid :
  has_nul (route_certificate_number now rid) = false.
Proof.
  unfold route_certificate_number; rewrite !has_nul_app, !has_nul_Z; reflexivity.
Qed.

(** Issuing a certificate for a registration that has none, when the QR code
    renders and the number is free and fits its column, makes the
    verification of that number answer 200 "valid" with the number, the
    issue date (the instant of the storage call) and the event and holder
    summaries; this holds even when the issuing request itself ends in 500
    because its activity row cannot be written. *)
Theorem issue_then_verify_valid enc p h a rid now t q s r e u :
  enc (verification_url p h (route_certificate_number now rid)) = Some q ->
  (String.length (route_certificate_number now rid) <= 50)%nat ->
  find (fun x => Z.eqb x.(registration_id) rid) s.(registrations) = Some r ->
  find (fun x => Z.eqb x.(event_id) r.(eventId)) s.(events) = Some e ->
  find (fun x => Z.eqb x.(user_id) r.(userId)) s.(users) = Some u ->
  find (fun c => Z.eqb c.(registrationId) rid) s.(certificates) = None ->
  existsb (fun c => String.eqb c.(certificateNumber)
                      (route_certificate_number now rid)) s.(certificates) = false ->
  fst (getVerifyCertificate (route_certificate_number now rid)
         (snd (postRegistrationCertificate enc p h a rid now t s))) =
  Ok (200, JObj
    [("message", JStr "Certificate is valid");
     ("valid", JBool true);
     ("certificate", JObj
       [("certificateNumber", JStr (route_certificate_number now rid));
        ("issuedDate", JDate t);
        ("event", JObj [("title", JStr e.(title));
                        ("startDate", JDate e.(startDate));
                        ("endDate", JDate e.(endDate))]);
        ("user", JObj [("fullName", JStr u.(fullName));
                       ("organization", json_of_option_string u.(organization));
                       ("position", json_of_option_string u.(position))])])]).
Proof.
  intros Hq Hlen Hr He Hu Hf Hnum.
  destruct (issue_fresh_registration enc p h a rid now t q s Hq Hlen
              (find_some_existsb _ _ _ Hr) Hf Hnum) as [Hc _].
  destruct (tables_postRegistrationCertificate enc p h a rid now t s)
    as [Htu [Hte Htr]].
  revert Htu Hte Htr Hc.
  generalize (snd (postRegistrationCertificate enc p h a rid now t s)) as s'.
  intros s' Htu Hte Htr Hc.
  unfold getVerifyCertificate, try_catch, getCertificateByNumber.
  rewrite has_nul_route_number.
  unfold logActivity, bind, get_db, put_db, ret, throw; simpl.
  rewrite Hc, (find_app_none _ _ _ (find_existsb_false _ _ Hnum)); simpl.
  rewrite String.eqb_refl; simpl.
  rewrite Htr, Hr; simpl; rewrite Htu, (find_some_existsb _ _ _ Hu); simpl.
  rewrite Hte, He, Hu; reflexivity.
Qed.

Lemma issue_then_verify_valid_witness :
  fst (getVerifyCertificate (route_certificate_number 1700000000000 42)
         (snd (postRegistrationCertificate qr_render "https" "host" 7 42
                 1700000000000 1700000000500 db0))) =
  Ok (200, JObj
    [("message", JStr "Certificate is valid");
     ("valid", JBool true);
     ("certificate", JObj
       [("certificateNumber", JStr (route_certificate_number 1700000000000 42));
        ("issuedDate", JDate 1700000000500);
        ("event", JObj [("title", JStr congress.(title));
                        ("startDate", JDate congress.(startDate));
                        ("endDate", JDate congress.(endDate))]);
        ("user", JObj [("fullName", JStr alice.(fullName));
                       ("organization", json_of_option_string alice.(organization));
                       ("position", json_of_option_string alice.(position))])])]).
Proof.
  apply (issue_then_verify_valid qr_render "https" "host" 7 42 1700000000000
           1700000000500
           (qr_stub (verification_url "https" "host"
                       (route_certificate_number 1700000000000 42)))
           db0 reg42 congress alice);
    [vm_compute; reflexivity|apply Nat.leb_le; reflexivity|..]; reflexivity.
Defined.

(** Once a revocation request with a non-empty reason free of NUL
    characters, by an existing user, has been served for the row that the
    verification route finds under a number (itself free of NUL characters),
    verifying that number answers 200 "revoked" with the given reason and the
    revocation date, whether the revocation request answered 200 or 500. *)
Theorem revoke_then_verify_revoked s c actor reason now :
  find (fun x => String.eqb x.(certificateNumber) c.(certificateNumber))
       s.(certificates) = Some c ->
  has_nul c.(certificateNumber) = false ->
  reason <> EmptyString -> has_nul reason = false ->
  existsb (fun u => Z.eqb u.(user_id) actor) s.(users) = true ->
  fst (getVerifyCertificate c.(certificateNumber)
         (snd (postRevokeCertificate actor c.(certificate_id) (Some reason) now s))) =
  Ok (200, JObj [("message", JStr "Certificate has been revoked");
                 ("valid", JBool false);
                 ("revoked", JBool true);
                 ("revokedReason", JStr reason);
                 ("revokedDate", JDate now)]).
Proof.
  intros Hf Hn Hr Hnul Hu.
  pose proof (revoke_route_certificates actor c.(certificate_id) reason now s
                Hr Hnul Hu) as Hc.
  revert Hc.
  generalize (snd (postRevokeCertificate actor c.(certificate_id) (Some reason)
                     now s)) as s'.
  intros s' Hc.
  unfold getVerifyCertificate, try_catch, getCertificateByNumber.
  rewrite Hn; unfold bind, get_db, ret; simpl.
  rewrite Hc, find_map_stable, Hf; simpl.
  - rewrite Z.eqb_refl; simpl.
    destruct (find _ (registrations s')); reflexivity.
  - intros x; destruct (Z.eqb _ _); reflexivity.
Qed.

Lemma revoke_then_verify_revoked_witness :
  fst (getVerifyCertificate "CERT-1700000000000-42"
         (snd (postRevokeCertificate 7 1 (Some "duplicate") 1700000001000 db1))) =
  Ok (200, JObj [("message", JStr "Certificate has been revoked");
                 ("valid", JBool false);
                 ("revoked", JBool true);
                 ("revokedReason", JStr "duplicate");
                 ("revokedDate", JDate 1700000001000)]).
Proof.
  apply (revoke_then_verify_revoked db1
           (mkCertificate 1 42 "CERT-1700000000000-42"
              "data:image/png;base64,https://host/certificates/verify/CERT-1700000000000-42"
              1700000000000 false None None None 1700000000000 1700000000000)
           7 "duplicate" 1700000001000);
    [vm_compute; reflexivity|reflexivity|discriminate|reflexivity|
     vm_compute; reflexivity].
Defined.

(** Issuing again for a registration whose certificate is revoked, when the
    QR code renders, makes the old number (free of NUL characters) verify as
    valid again, with the new issue date. *)
Theorem reissue_then_verify_valid enc p h a rid now t q s c r e u :
  enc (verification_url p h (route_certificate_number now rid)) = Some q ->
  find (fun x => Z.eqb x.(registrationId) rid) s.(certificates) = Some c ->
  c.(isRevoked) = true ->
  find (fun x => String.eqb x.(certificateNumber) c.(certificateNumber))
       s.(certificates) = Some c ->
  has_nul c.(certificateNumber) = false ->
  find (fun x => Z.eqb x.(registration_id) rid) s.(registrations) = Some r ->
  find (fun x => Z.eqb x.(event_id) r.(eventId)) s.(events) = Some e ->
  find (fun x => Z.eqb x.(user_id) r.(userId)) s.(users) = Some u ->
  fst (getVerifyCertificate c.(certificateNumber)
         (snd (postRegistrationCertificate enc p h a rid now t s))) =
  Ok (200, JObj
    [("message", JStr "Certificate is valid");
     ("valid", JBool true);
     ("certificate", JObj
       [("certificateNumber", JStr c.(certificateNumber));
        ("issuedDate", JDate t);
        ("event", JObj [("title", JStr e.(title));
                        ("startDate", JDate e.(startDate));
                        ("endDate", JDate e.(endDate))]);
        ("user", JObj [("fullName", JStr u.(fullName));
                       ("organization", json_of_option_string u.(organization));
                       ("position", json_of_option_string u.(position))])])]).
Proof.
  intros Hq Hf Hrev Hn Hnn Hr He Hu.
  assert (Hrid : c.(registrationId) = rid).
  { apply find_some in Hf as [_ Hf]; apply Z.eqb_eq; exact Hf. }
  pose proof (reissue_route_certificates enc p h a rid now t q s c Hq Hf Hrev) as Hc.
  destruct (tables_postRegistrationCertificate enc p h a rid now t s)
    as [Htu [Hte Htr]].
  revert Htu Hte Htr Hc.
  generalize (snd (postRegistrationCertificate enc p h a rid now t s)) as s'.
  intros s' Htu Hte Htr Hc.
  unfold getVerifyCertificate, try_catch, getCertificateByNumber.
  rewrite Hnn.
  unfold logActivity, bind, get_db, put_db, ret, throw; simpl.
  rewrite Hc, find_map_stable, Hn; simpl.
  - rewrite Z.eqb_refl; simpl; rewrite Hrid.
    rewrite Htr, Hr; simpl; rewrite Htu, (find_some_existsb _ _ _ Hu); simpl.
    rewrite Hte, He, Hu; reflexivity.
  - intros x; destruct (Z.eqb _ _); reflexivity.
Qed.

Lemma reissue_then_verify_valid_witness :
  fst (getVerifyCertificate "CERT-1700000000000-42"
         (snd (postRegistrationCertificate qr_render "https" "host" 7 42
                 1700000002000 1700000002000 db2))) =
  Ok (200, JObj
    [("message", JStr "Certificate is valid");
     ("valid", JBool true);
     ("certificate", JObj
       [("certificateNumber", JStr "CERT-1700000000000-42");
        ("issuedDate", JDate 1700000002000);
        ("event", JObj [("title", JStr congress.(title));
                        ("startDate", JDate congress.(startDate));
                        ("endDate", JDate congress.(endDate))]);
        ("user", JObj [("fullName", JStr alice.(fullName));
                       ("organization", json_of_option_string alice.(organization));
                       ("position", json_of_option_string alice.(position))])])]).
Proof.
  apply (reissue_then_verify_valid qr_render "https" "host" 7 42 1700000002000
           1700000002000
           (qr_stub (verification_url "https" "host"
                       (route_certificate_number 1700000002000 42))) db2
           (mkCertificate 1 42 "CERT-1700000000000-42"
              "data:image/png;base64,https://host/certificates/verify/CERT-1700000000000-42"
              1700000000000 true (Some "duplicate") (Some 1700000001000) (Some 7)
              1700000000000 1700000001000)
           reg42 congress alice); vm_compute; reflexivity.
Defined.

(** ** What the routes write on their error paths *)

(** The verification route writes nothing but, at most, one
    ["verify_certificate"] row appended to [activity_logs]: every other table
    and both sequences of certificates are left as they were. *)
Theorem verify_writes_only_activity n s :
  snd (getVerifyCertificate n s) = s \/
  exists a, snd (getVerifyCertificate n s) = append_activity s a /\
            a.(action) = "verify_certificate".
Proof.
  unfold getVerifyCertificate, try_catch, getCertificateByNumber, logActivity,
    bind, get_db, put_db, ret, throw; simpl.
  destruct (has_nul n); [left; reflexivity|]; simpl.
  destruct (find _ (certificates s)) as [c|]; [|left; reflexivity].
  destruct (find _ (registrations s)) as [r|]; simpl;
    destruct (isRevoked c); try (left; reflexivity).
  destruct (existsb _ (users s)); simpl; [|left; reflexivity].
  right; eexists; split;
    [destruct (find _ (events s)); [destruct (find _ (users s))|]; reflexivity|
     reflexivity].
Qed.

(** A revocation request whose reason is absent or empty is answered 400 and
    writes nothing; a reason holding a NUL character is refused by Postgres,
    answered 500, and writes nothing either; any other reason, even one made
    only of spaces, given by an existing user, is written to every row with
    the given id. *)
Theorem revoke_reason_required a id now s :
  postRevokeCertificate a id None now s =
    (Ok (400, JObj [("message", JStr "Revocation reason is required")]), s) /\
  postRevokeCertificate a id (Some "") now s =
    (Ok (400, JObj [("message", JStr "Revocation reason is required")]), s) /\
  (forall reason, has_nul reason = true ->
     postRevokeCertificate a id (Some reason) now s =
       (Ok (500, JObj [("message", JStr "Failed to revoke certificate")]), s)) /\
  (forall reason, reason <> EmptyString -> has_nul reason = false ->
     existsb (fun u => Z.eqb u.(user_id) a) s.(users) = true ->
     (snd (postRevokeCertificate a id (Some reason) now s)).(certificates) =
     map (fun c => if Z.eqb c.(certificate_id) id
                   then revoke_fields a reason now c else c) s.(certificates)).
Proof.
  split; [reflexivity|split; [reflexivity|split]].
  - intros [|ch r] Hn; [discriminate|].
    unfold postRevokeCertificate, try_catch, revokeCertificate.
    rewrite Hn; reflexivity.
  - intros reason Hr Hn Hu; apply revoke_route_certificates; assumption.
Qed.

Lemma revoke_reason_required_witness :
  (snd (postRevokeCertificate 7 1 (Some " ") 1700000001000 db1)).(certificates) =
  map (fun c => if Z.eqb c.(certificate_id) 1
                then revoke_fields 7 " " 1700000001000 c else c) db1.(certificates) /\
  postRevokeCertificate 7 1 (Some (String Ascii.zero EmptyString)) 1700000001000 db1 =
    (Ok (500, JObj [("message", JStr "Failed to revoke certificate")]), db1).
Proof.
  split.
  - apply (proj2 (proj2 (proj2 (revoke_reason_required 7 1 1700000001000 db1))));
      [discriminate|reflexivity|vm_compute; reflexivity].
  - apply (proj1 (proj2 (proj2 (revoke_reason_required 7 1 1700000001000 db1))));
      reflexivity.
Defined.

Lemma map_update_absent id f l :
  existsb (fun c => Z.eqb c.(certificate_id) id) l = false ->
  map (fun c => if Z.eqb c.(certificate_id) id then f c else c) l = l.
Proof.
  induction l as [|c l IH]; simpl; [reflexivity|].
  destruct (Z.eqb _ _); simpl; [discriminate|intros H; rewrite IH; auto].
Qed.

Lemma revoke_fk_absent id a s :
  existsb (fun c => Z.eqb c.(certificate_id) id) s.(certificates) = false ->
  revoke_fk_fails id a s = false.
Proof.
  intros Habs; unfold revoke_fk_fails.
  assert (H : forall l,
    existsb (fun c => Z.eqb c.(certificate_id) id) l = false ->
    existsb (fun c => Z.eqb c.(certificate_id) id &&
                      negb (match c.(revokedById) with
                            | Some b => Z.eqb b a
                            | None => false
                            end)) l = false).
  { induction l as [|c l IH]; simpl; [reflexivity|].
    destruct (Z.eqb _ _); simpl; [discriminate|exact IH]. }
  rewrite (H _ Habs); reflexivity.
Qed.

(** Revoking an id that no certificate row has is answered 500 ("Failed to
    revoke certificate") and leaves the database unchanged. *)
Theorem revoke_unknown_id a id reason now s :
  reason <> EmptyString ->
  existsb (fun c => Z.eqb c.(certificate_id) id) s.(certificates) = false ->
  postRevokeCertificate a id (Some reason) now s =
    (Ok (500, JObj [("message", JStr "Failed to revoke certificate")]), s).
Proof.
  intros Hr Habs; destruct reason as [|ch r]; [contradiction|].
  unfold postRevokeCertificate, try_catch, revokeCertificate.
  destruct (has_nul (String ch r)); [reflexivity|].
  unfold updateCertificate, bind, get_db, put_db, ret, throw; cbv beta iota.
  rewrite (revoke_fk_absent id a s Habs); simpl.
  rewrite (map_update_absent _ _ _ Habs), (find_existsb_false _ _ Habs).
  destruct s; reflexivity.
Qed.

Lemma revoke_unknown_id_witness :
  postRevokeCertificate 7 99 (Some "typo") 1700000001000 db1 =
    (Ok (500, JObj [("message", JStr "Failed to revoke certificate")]), db1).
Proof.
  apply (revoke_unknown_id 7 99 "typo" 1700000001000 db1);
    [discriminate|vm_compute; reflexivity].
Defined.



(** When the acting user id has no [users] row, the issuance request (whose
    QR code renders, with a free number that fits its column) is answered
    500, yet the certificate row it inserted stays in the table: the failed
    activity log does not undo the insert. *)
Theorem issue_log_failure_keeps_row enc p h a rid now t q s :
  enc (verification_url p h (route_certificate_number now rid)) = Some q ->
  (String.length (route_certificate_number now rid) <= 50)%nat ->
  existsb (fun r => Z.eqb r.(registration_id) rid) s.(registrations) = true ->
  find (fun c => Z.eqb c.(registrationId) rid) s.(certificates) = None ->
  existsb (fun c => String.eqb c.(certificateNumber)
                      (route_certificate_number now rid)) s.(certificates) = false ->
  existsb (fun u => Z.eqb u.(user_id) a) s.(users) = false ->
  fst (postRegistrationCertificate enc p h a rid now t s) =
    Ok (500, JObj [("message", JStr "Failed to generate certificate")]) /\
  (snd (postRegistrationCertificate enc p h a rid now t s)).(certificates) =
    (s.(certificates) ++
     [mkCertificate s.(certificates_seq) rid (route_certificate_number now rid)
        q t false None None None t t])%list.
Proof.
  intros Hq Hlen Hreg Hf Hnum Hu.
  destruct (issue_fresh_registration enc p h a rid now t q s Hq Hlen Hreg Hf Hnum)
    as [Hc _].
  split; [|exact Hc].
  assert (Hlt : Nat.ltb 50 (String.length (route_certificate_number now rid))
                = false) by (apply Nat.ltb_ge; exact Hlen).
  unfold postRegistrationCertificate, try_catch, generateCertificate_qr.
  rewrite Hq.
  unfold generateCertificate, generateCertificate_write,
    findCertificateByRegistration, insertCertificate,
    logActivity, bind, get_db, put_db, ret, throw; simpl.
  rewrite Hf; simpl; simpl in Hlt; rewrite Hlt, Hnum; simpl; rewrite Hreg; simpl.
  rewrite Hu; reflexivity.
Qed.

Lemma issue_log_failure_keeps_row_witness :
  fst (postRegistrationCertificate qr_render "https" "host" 8 42 1700000000000
         1700000000000 db0) =
    Ok (500, JObj [("message", JStr "Failed to generate certificate")]) /\
  (snd (postRegistrationCertificate qr_render "https" "host" 8 42 1700000000000
          1700000000000 db0)).(certificates) =
    (db0.(certificates) ++
     [mkCertificate db0.(certificates_seq) 42 (route_certificate_number 1700000000000 42)
        (qr_stub (verification_url "https" "host"
                    (route_certificate_number 1700000000000 42)))
        1700000000000 false None None None 1700000000000 1700000000000])%list.
Proof.
  apply (issue_log_failure_keeps_row qr_render "https" "host" 8 42 1700000000000
           1700000000000); try reflexivity;
    first [apply Nat.leb_le; reflexivity|vm_compute; reflexivity].
Defined.

(** ** Deleting an event *)



(** ** Authentication middleware *)

Lemma split_space_nospace w : no_space w = true -> split_space w = [w].
Proof.
  induction w as [|c w IH]; [reflexivity|].
  unfold no_space; simpl; destruct (Ascii.eqb c " "); simpl; [discriminate|].
  intros H; rewrite IH by exact H; reflexivity.
Qed.

Lemma split_space_app w t :
  no_space w = true -> split_space (w ++ String " " t) = w :: split_space t.
Proof.
  induction w as [|c w IH]; [reflexivity|].
  unfold no_space; simpl; destruct (Ascii.eqb c " "); simpl; [discriminate|].
  intros H; rewrite IH by exact H; reflexivity.
Qed.

Lemma header_nonempty w t : exists c h, (w ++ String " " t)%string = String c h.
Proof. destruct w; simpl; eauto. Qed.

(** For a header [w ++ " " ++ t] whose scheme word [w] and token [t] have no
    space, [authenticateJWT] hands [t] to [jwt.verify] with [JWT_SECRET] (or
    ["your_jwt_secret"] when it is unset or empty), whatever [w] is: the
    scheme is not checked to be [Bearer]; a token that verifies sets
    [req.user], any other is answered 403. *)
Theorem authenticateJWT_token_field verify env w t :
  no_space w = true -> no_space t = true -> t <> EmptyString ->
  authenticateJWT verify env (Some (w ++ " " ++ t)) =
  match verify t (jwt_secret env) with
  | Some u => MwNext u
  | None => MwRespond 403 (JObj [("message", JStr "Invalid or expired token")])
  end.
Proof.
  intros Hw Ht Hne; change (" " ++ t)%string with (String " " t).
  destruct (header_nonempty w t) as [c [h Hh]].
  unfold authenticateJWT; rewrite Hh; rewrite <- Hh.
  rewrite split_space_app, split_space_nospace by assumption; simpl.
  destruct t as [|ct t]; [contradiction|reflexivity].
Qed.

Lemma authenticateJWT_token_field_witness :
  authenticateJWT (fun tok _ => if String.eqb tok "t0k"
                                then Some (mkReqUser 7 "a@b" "participant" [])
                                else None)
    None (Some ("Basic" ++ " " ++ "t0k")) =
  MwNext (mkReqUser 7 "a@b" "participant" []).
Proof.
  apply (authenticateJWT_token_field
           (fun tok _ => if String.eqb tok "t0k"
                         then Some (mkReqUser 7 "a@b" "participant" [])
                         else None) None "Basic" "t0k");
    [reflexivity|reflexivity|discriminate].
Defined.

(** [authenticateJWT] answers 401 "Authentication required" when the
    Authorization header is absent or empty, and 401 "Authentication token is
    missing" when it has no space, or when the field after its first space is
    empty (a trailing space, or two spaces in a row), without calling
    [jwt.verify]. *)
Theorem authenticateJWT_rejects verify env :
  authenticateJWT verify env None =
    MwRespond 401 (JObj [("message", JStr "Authentication required")]) /\
  authenticateJWT verify env (Some "") =
    MwRespond 401 (JObj [("message", JStr "Authentication required")]) /\
  (forall h, no_space h = true -> h <> EmptyString ->
     authenticateJWT verify env (Some h) =
       MwRespond 401 (JObj [("message", JStr "Authentication token is missing")])) /\
  (forall w t, no_space w = true ->
     (t = EmptyString \/ exists t', t = String " " t') ->
     authenticateJWT verify env (Some (w ++ " " ++ t)) =
       MwRespond 401 (JObj [("message", JStr "Authentication token is missing")])).
Proof.
  split; [reflexivity|split; [reflexivity|split]].
  - intros h Hh Hne; destruct h as [|c h]; [contradiction|].
    unfold authenticateJWT; rewrite (split_space_nospace _ Hh); reflexivity.
  - intros w t Hw Ht; change (" " ++ t)%string with (String " " t).
    destruct (header_nonempty w t) as [c [h Hh]].
    unfold authenticateJWT; rewrite Hh; rewrite <- Hh.
    rewrite split_space_app by exact Hw.
    destruct Ht as [->|[t' ->]]; reflexivity.
Qed.

Lemma authenticateJWT_rejects_witness :
  authenticateJWT (fun _ _ => Some (mkReqUser 1 "x@y" "super_admin" [])) None
    (Some "Bearer") =
    MwRespond 401 (JObj [("message", JStr "Authentication token is missing")]) /\
  authenticateJWT (fun _ _ => Some (mkReqUser 1 "x@y" "super_admin" [])) None
    (Some ("Bearer" ++ " " ++ " t0k")) =
    MwRespond 401 (JObj [("message", JStr "Authentication token is missing")]).
Proof.
  pose proof (authenticateJWT_rejects
                (fun _ _ => Some (mkReqUser 1 "x@y" "super_admin" [])) None)
    as [_ [_ [H1 H2]]].
  split; [apply H1; [reflexivity|discriminate]|].
  apply H2; [reflexivity|right; eexists; reflexivity].
Defined.

(** [checkPermission(permission)] answers 401 without [req.user]; with one it
    calls [next()] exactly when the role is ["super_admin"] or the permission
    is in the user's list, and answers 403 "Permission denied" otherwise. *)
Theorem checkPermission_decision perm u :
  checkPermission perm None =
    MwRespond 401 (JObj [("message", JStr "Authentication required")]) /\
  (checkPermission perm (Some u) = MwNext u <->
     u.(req_role) = "super_admin" \/ In perm u.(req_permissions)) /\
  (checkPermission perm (Some u) = MwNext u \/
   checkPermission perm (Some u) =
     MwRespond 403 (JObj [("message", JStr "Permission denied")])).
Proof.
  split; [reflexivity|]; unfold checkPermission.
  destruct (String.eqb (req_role u) "super_admin") eqn:Hr.
  - apply String.eqb_eq in Hr; split; [split; auto|left; reflexivity].
  - apply String.eqb_neq in Hr.
    destruct (existsb (String.eqb perm) (req_permissions u)) eqn:He.
    + apply existsb_exists in He as [q [Hq Heq]]; apply String.eqb_eq in Heq; subst q.
      split; [split; auto|left; reflexivity].
    + split; [|right; reflexivity].
      split; [discriminate|intros [H|H]; [contradiction|]].
      pose proof (existsb_false_In _ _ _ He H) as H'.
      rewrite String.eqb_refl in H'; discriminate.
Qed.

(** [checkRole(roles)] grants no bypass to ["super_admin"]: with [req.user] it
    calls [next()] exactly when the user's role is in [roles], and answers 403
    otherwise; without [req.user] it answers 401. *)
Theorem checkRole_decision roles u :
  checkRole roles None =
    MwRespond 401 (JObj [("message", JStr "Authentication required")]) /\
  (checkRole roles (Some u) = MwNext u <-> In u.(req_role) roles) /\
  (checkRole roles (Some u) = MwNext u \/
   checkRole roles (Some u) =
     MwRespond 403
       (JObj [("message", JStr "Access denied: Insufficient role privileges")])).
Proof.
  split; [reflexivity|]; unfold checkRole.
  destruct (existsb (String.eqb (req_role u)) roles) eqn:He.
  - apply existsb_exists in He as [q [Hq Heq]]; apply String.eqb_eq in Heq; subst q.
    split; [split; auto|left; reflexivity].
  - split; [|right; reflexivity].
    split; [discriminate|intros H].
    pose proof (existsb_false_In _ _ _ He H) as H'.
    rewrite String.eqb_refl in H'; discriminate.
Qed.

(** Behind [authenticateJWT, checkPermission(permission)], a request with the
    header [w ++ " " ++ t] (no space in [w] or [t], [t] non-empty) reaches the
    handler, as user [u], exactly when [jwt.verify] accepts [t] as [u] and [u]
    is a super admin or holds the permission; without a header it never
    does. *)
Theorem guard_admits verify env w t perm u :
  no_space w = true -> no_space t = true -> t <> EmptyString ->
  (guard verify env (Some (w ++ " " ++ t)) perm = MwNext u <->
   verify t (jwt_secret env) = Some u /\
   (u.(req_role) = "super_admin" \/ In perm u.(req_permissions))) /\
  guard verify env None perm =
    MwRespond 401 (JObj [("message", JStr "Authentication required")]).
Proof.
  intros Hw Ht Hne; split; [|reflexivity].
  unfold guard; rewrite (authenticateJWT_token_field verify env w t Hw Ht Hne).
  destruct (verify t (jwt_secret env)) as [v|]; [|split; [discriminate|intros [H _]; discriminate]].
  destruct (checkPermission_decision perm v) as [_ [Hiff Hor]].
  split.
  - intros H; assert (v = u).
    { destruct Hor as [Ho|Ho]; rewrite Ho in H; congruence. }
    subst v; split; [reflexivity|apply Hiff; exact H].
  - intros [Hv Hp]; injection Hv as <-; apply Hiff; exact Hp.
Qed.

Lemma guard_admits_witness :
  guard (fun tok _ => if String.eqb tok "t0k"
                      then Some (mkReqUser 7 "a@b" "event_manager"
                                  ["certificate:generate"])
                      else None)
    (Some "s3cret") (Some ("Bearer" ++ " " ++ "t0k")) "certificate:generate" =
  MwNext (mkReqUser 7 "a@b" "event_manager" ["certificate:generate"]).
Proof.
  apply (guard_admits (fun tok _ => if String.eqb tok "t0k"
                      then Some (mkReqUser 7 "a@b" "event_manager"
                                  ["certificate:generate"])
                      else None)
           (Some "s3cret") "Bearer" "t0k" "certificate:generate");
    [reflexivity|reflexivity|discriminate|].
  split; [reflexivity|right; left; reflexivity].
Defined.

(** ** Event registration *)

Import Registration.

Lemma approved_count_append e s evs uids row seq :
  approved_count e (mkRState evs uids (s.(r_registrations) ++ [row])%list seq) =
  (approved_count e s +
   if Z.eqb row.(eventId) e &&
      match row.(status) with approved => true | _ => false end
   then 1 else 0)%nat.
Proof.
  unfold approved_count; simpl; rewrite filter_app, length_app; simpl.
  destruct (_ && _); reflexivity.
Qed.

(** A call of [registerForEvent] run alone (no other request between its
    statements) never creates a second registration of the same user for the
    same event: if the (event, user) pairs are pairwise distinct before, they
    are after. *)
Theorem registerForEvent_pairs_unique d s :
  NoDup (map (fun r => (r.(eventId), r.(userId))) s.(r_registrations)) ->
  NoDup (map (fun r => (r.(eventId), r.(userId)))
             (snd (registerForEvent d s)).(r_registrations)).
Proof.
  intros H; unfold registerForEvent.
  destruct (find _ _) as [ev|]; [|exact H].
  destruct (existsb _ _) eqn:Hex; [exact H|].
  destruct (capacity_reached _ _); [exact H|].
  destruct (negb _); [exact H|]; simpl.
  rewrite map_app; apply NoDup_app; [exact H|constructor; [intros []|constructor]|].
  intros p Hp [<-|[]]; apply in_map_iff in Hp as [r [Hr Hin]].
  pose proof (existsb_false_In _ _ _ Hex Hin) as Hf; simpl in Hf.
  injection Hr as He Hu; rewrite He, Hu, !Z.eqb_refl in Hf; discriminate.
Qed.

Lemma registerForEvent_pairs_unique_witness :
  NoDup (map (fun r => (r.(eventId), r.(userId)))
    (snd (registerForEvent (mkRegistrationData 3 7 None)
       (mkRState [mkEventRow 3 (Some 10) (Some true)] [7; 8]
                 [mkRegistration 42 3 8 approved false] 43))).(r_registrations)).
Proof.
  apply registerForEvent_pairs_unique; repeat constructor; intros [].
Defined.

(** For an event whose row (the first with its id) has a positive capacity
    [c], a call of [registerForEvent] run alone keeps the number of approved
    registrations of that event at most [c]. *)
Theorem registerForEvent_capacity d s e ev c :
  find (fun x => Z.eqb x.(ev_id) e) s.(r_events) = Some ev ->
  ev.(capacity) = Some c -> 0 < c ->
  Z.of_nat (approved_count e s) <= c ->
  Z.of_nat (approved_count e (snd (registerForEvent d s))) <= c.
Proof.
  intros Hev Hc Hpos Hle; unfold registerForEvent.
  destruct (find (fun x => Z.eqb x.(ev_id) d.(data_eventId)) s.(r_events))
    as [ev'|] eqn:Hf; [|exact Hle].
  destruct (existsb _ _); [exact Hle|].
  destruct (capacity_reached _ _) eqn:Hcap; [exact Hle|].
  destruct (negb _); [exact Hle|]; simpl.
  rewrite approved_count_append; simpl.
  destruct (Z.eqb (data_eventId d) e) eqn:He; simpl; [|rewrite Nat.add_0_r; exact Hle].
  apply Z.eqb_eq in He; subst e; rewrite Hev in Hf; injection Hf as <-.
  unfold capacity_reached in Hcap; rewrite Hc in Hcap.
  destruct (Z.eqb c 0) eqn:H0; [apply Z.eqb_eq in H0; lia|simpl in Hcap].
  apply Z.leb_gt in Hcap.
  destruct (autoApproveRegistrations ev) as [[|]|]; simpl; lia.
Qed.

Lemma registerForEvent_capacity_witness :
  Z.of_nat (approved_count 3 (snd (registerForEvent (mkRegistrationData 3 7 None)
       (mkRState [mkEventRow 3 (Some 1) (Some true)] [7; 8]
                 [mkRegistration 42 3 8 approved false] 43)))) <= 1.
Proof.
  apply (registerForEvent_capacity _ _ 3 (mkEventRow 3 (Some 1) (Some true)) 1);
    first [reflexivity|vm_compute; discriminate|lia].
Defined.



(** ** Registration updates and verification *)

Lemma verify_after_updateRegistration n id f s :
  (forall r, (f r).(registration_id) = r.(registration_id) /\
             (f r).(userId) = r.(userId) /\ (f r).(eventId) = r.(eventId)) ->
  fst (getVerifyCertificate n (snd (updateRegistration id f s))) =
  fst (getVerifyCertificate n s).
Proof.
  intros Hf.
  unfold getVerifyCertificate, try_catch, getCertificateByNumber, logActivity,
    updateRegistration, bind, get_db, put_db, ret, throw; simpl.
  destruct (has_nul n); [reflexivity|]; simpl.
  destruct (find _ (certificates s)) as [c|]; [|reflexivity].
  rewrite find_map_stable.
  - destruct (find _ (registrations s)) as [r|]; simpl;
      [|destruct (isRevoked c); reflexivity].
    destruct (Z.eqb (registration_id r) id); simpl;
      [destruct (Hf r) as [_ [-> ->]]|];
      (destruct (isRevoked c); simpl; [reflexivity|]);
      (destruct (existsb _ (users s)); simpl; [|reflexivity]);
      (destruct (find _ (events s)); [destruct (find _ (users s))|]; reflexivity).
  - intros r; destruct (Z.eqb (registration_id r) id); [|reflexivity].
    destruct (Hf r) as [-> _]; reflexivity.
Qed.

(** Changing the status of a registration (to "rejected" as well) or
    confirming its attendance does not change what the verification route
    answers for any number: a certificate already issued for a registration
    that is then rejected keeps verifying as valid. *)
Theorem registration_updates_keep_verification n id st s :
  fst (getVerifyCertificate n (snd (updateRegistrationStatus id st s))) =
    fst (getVerifyCertificate n s) /\
  fst (getVerifyCertificate n (snd (confirmAttendance id s))) =
    fst (getVerifyCertificate n s).
Proof.
  split; apply verify_after_updateRegistration; intros r; repeat split.
Qed.

(** The verification route answers "valid" only for a number carried by a
    certificate row that is not revoked. *)
Theorem verify_valid_sound n s body :
  fst (getVerifyCertificate n s) = Ok (200, body) ->
  json_field "valid" body = Some (JBool true) ->
  exists c, In c s.(certificates) /\ c.(certificateNumber) = n /\
            c.(isRevoked) = false.
Proof.
  unfold getVerifyCertificate, try_catch, getCertificateByNumber, logActivity,
    bind, get_db, put_db, ret, throw; simpl.
  destruct (has_nul n); [intros H; inversion H|]; simpl.
  destruct (find _ (certificates s)) as [c|] eqn:Hc;
    [|intros H; inversion H].
  apply find_some in Hc as [Hin Hn]; apply String.eqb_eq in Hn.
  destruct (isRevoked c) eqn:Hr.
  - destruct (find _ (registrations s)); simpl; rewrite Hr;
      intros H Hv; inversion H; subst; discriminate.
  - intros _ _; exists c; auto.
Qed.

Lemma verify_valid_sound_witness :
  exists c, In c db1.(certificates) /\
            c.(certificateNumber) = "CERT-1700000000000-42" /\
            c.(isRevoked) = false.
Proof.
  destruct (fst (getVerifyCertificate "CERT-1700000000000-42" db1)) as [[st body]|]
    eqn:Hv; [|vm_compute in Hv; discriminate].
  assert (st = 200) as -> by (vm_compute in Hv; congruence).
  apply (verify_valid_sound "CERT-1700000000000-42" db1 body);
    [exact Hv|vm_compute in Hv; injection Hv as <-; reflexivity].
Defined.
